(** * Invoice dashboard server actions (app/lib/actions.ts)

    A shallow embedding of the four server actions [authenticate],
    [createInvoice], [updateInvoice] and [deleteInvoice], together with the
    part of their runtime that decides what they do: JavaScript numbers
    (IEEE 754 binary64) and the string-to-number coercion, [Date] formatting,
    [FormData], the fragment of the zod validation library used by
    [FormSchema], and the collaborators reached through effects (the SQL
    store, the cache invalidation, the redirect and the sign-in delegate). *)

From Stdlib Require Import ZArith Lia Bool List Ascii String.
From Stdlib Require Import Floats.SpecFloat.
From stdpp Require Import base strings list gmap pretty.

Local Open Scope Z_scope.

(** ** JavaScript numbers

    A JS number is an IEEE 754 binary64 value.  The Standard Library's
    [spec_float] is the executable specification of such values; all
    operations below are the library's, instantiated at 53 bits of
    precision and maximal exponent 1024. *)

Module Number.

Definition prec : Z := 53.
Definition emax : Z := 1024.

Definition t : Type := spec_float.

Definition NaN : t := S754_nan.
Definition pos_zero : t := S754_zero false.
Definition infinity (neg : bool) : t := S754_infinity neg.

(** The number nearest to the integer [z] (ties to even). *)
Definition of_Z (z : Z) : t := binary_normalize prec emax z 0 false.

(** The number nearest to [(-1)^neg * m * 10^e10], for [m >= 0]: the
    decimal value is rounded once, to nearest with ties to even, as the
    engines do for a numeric string of any length. *)
Definition of_decimal (neg : bool) (m e10 : Z) : t :=
  match m with
  | Zpos p =>
      if 0 <=? e10
      then binary_round prec emax neg (p * Z.to_pos (10 ^ e10)) 0
      else SFdiv prec emax (S754_finite neg p 0)
                           (S754_finite false (Z.to_pos (10 ^ (- e10))) 0)
  | _ => S754_zero neg
  end.

(** [x * y] *)
Definition mul (x y : t) : t := SFmul prec emax x y.

(** [x <= y] and [x < y]; both are false when an operand is NaN. *)
Definition leb (x y : t) : bool := SFleb x y.
Definition ltb (x y : t) : bool := SFltb x y.

(** The global [isNaN] on a number. *)
Definition isNaN (x : t) : bool :=
  match x with S754_nan => true | _ => false end.

(** The integer a number denotes, when it denotes one. *)
Definition to_Z (x : t) : option Z :=
  match x with
  | S754_zero _ => Some 0
  | S754_finite s m e =>
      let v := cond_Zopp s (Zpos m) in
      if 0 <=? e then Some (v * 2 ^ e)
      else if (Zpos m) mod 2 ^ (- e) =? 0 then Some (v / 2 ^ (- e))
      else None
  | _ => None
  end.

(** [Number.isInteger] *)
Definition isInteger (x : t) : bool :=
  match to_Z x with Some _ => true | None => false end.

End Number.

(** ** Strings

    Strings are byte strings holding UTF-8 text, as received from a
    submitted form. *)

Definition code (c : ascii) : nat := nat_of_ascii c.

Definition isDecimalDigit (c : ascii) : bool :=
  ((48 <=? code c) && (code c <=? 57))%nat.

Definition digitValue (c : ascii) : Z :=
  let n := code c in
  if ((48 <=? n) && (n <=? 57))%nat then Z.of_nat (n - 48)
  else if ((97 <=? n) && (n <=? 102))%nat then Z.of_nat (n - 87)
  else if ((65 <=? n) && (n <=? 70))%nat then Z.of_nat (n - 55)
  else 0.

Definition isDigitOfRadix (radix : Z) (c : ascii) : bool :=
  let n := code c in
  (((48 <=? n) && (n <=? 57)) || ((97 <=? n) && (n <=? 102))
   || ((65 <=? n) && (n <=? 70)))%nat
  && (digitValue c <? radix).

(** The mathematical value of a sequence of digits in a radix. *)
Definition digitsMV (radix : Z) (ds : list ascii) : Z :=
  fold_left (fun acc c => radix * acc + digitValue c) ds 0.

(** The longest prefix of characters satisfying [p], and the rest. *)
Fixpoint span (p : ascii -> bool) (s : list ascii) : list ascii * list ascii :=
  match s with
  | [] => ([], [])
  | c :: r =>
      if p c then let '(a, b) := span p r in (c :: a, b) else ([], s)
  end.

(** *** White space (StrWhiteSpaceChar)

    TAB, VT, FF, SP, LF, CR in one byte; NBSP, the Unicode space
    separators, LS, PS and ZWNBSP in their UTF-8 encodings.  [wsPrefix s]
    is the number of bytes of the white space character [s] starts with
    (0 when it starts with none); [wsSuffixRev] is the same for the end of
    a string given reversed. *)

Definition isAsciiWhiteSpace (n : nat) : bool :=
  ((n =? 9) || (n =? 10) || (n =? 11) || (n =? 12) || (n =? 13) || (n =? 32))%nat.

Definition isWhiteSpace3 (b1 b2 b3 : nat) : bool :=
  (((b1 =? 225) && (b2 =? 154) && (b3 =? 128))                 (* U+1680 *)
   || ((b1 =? 226) && (b2 =? 128)
       && (((128 <=? b3) && (b3 <=? 138))                      (* U+2000..U+200A *)
           || (b3 =? 168) || (b3 =? 169) || (b3 =? 175)))      (* U+2028 U+2029 U+202F *)
   || ((b1 =? 226) && (b2 =? 129) && (b3 =? 159))              (* U+205F *)
   || ((b1 =? 227) && (b2 =? 128) && (b3 =? 128))              (* U+3000 *)
   || ((b1 =? 239) && (b2 =? 187) && (b3 =? 191)))%nat.        (* U+FEFF *)

Definition wsPrefix (s : list ascii) : nat :=
  match s with
  | c1 :: r =>
      if isAsciiWhiteSpace (code c1) then 1%nat
      else match r with
           | c2 :: r' =>
               if ((code c1 =? 194) && (code c2 =? 160))%nat then 2%nat   (* U+00A0 *)
               else match r' with
                    | c3 :: _ =>
                        if isWhiteSpace3 (code c1) (code c2) (code c3)
                        then 3%nat else 0%nat
                    | [] => 0%nat
                    end
           | [] => 0%nat
           end
  | [] => 0%nat
  end.

Definition wsSuffixRev (s : list ascii) : nat :=
  match s with
  | c1 :: r =>
      if isAsciiWhiteSpace (code c1) then 1%nat
      else match r with
           | c2 :: r' =>
               if ((code c2 =? 194) && (code c1 =? 160))%nat then 2%nat
               else match r' with
                    | c3 :: _ =>
                        if isWhiteSpace3 (code c3) (code c2) (code c1)
                        then 3%nat else 0%nat
                    | [] => 0%nat
                    end
           | [] => 0%nat
           end
  | [] => 0%nat
  end.

Fixpoint dropWhiteSpace (ws : list ascii -> nat) (fuel : nat) (s : list ascii)
  : list ascii :=
  match fuel with
  | O => s
  | S fuel' =>
      match ws s with
      | O => s
      | n => dropWhiteSpace ws fuel' (skipn n s)
      end
  end.

Definition trim (s : list ascii) : list ascii :=
  let s1 := dropWhiteSpace wsPrefix (length s) s in
  rev (dropWhiteSpace wsSuffixRev (length s1) (rev s1)).

(** *** StringToNumber

    The grammar of StringNumericLiteral: optional white space around
    either nothing, a signed decimal literal ([Infinity], digits with an
    optional fraction and exponent) or an unsigned binary, octal or
    hexadecimal integer literal.  Anything else is NaN. *)

Definition isExponentIndicator (c : ascii) : bool :=
  ((code c =? 101) || (code c =? 69))%nat.

(** ExponentPart, which must reach the end of the literal: the value of
    the exponent, 0 when there is none. *)
Definition parseExponentPart (s : list ascii) : option Z :=
  match s with
  | [] => Some 0
  | c :: r =>
      if isExponentIndicator c then
        let '(neg, r') :=
          match r with
          | "+"%char :: r' => (false, r')
          | "-"%char :: r' => (true, r')
          | _ => (false, r)
          end in
        match span isDecimalDigit r' with
        | ((_ :: _) as ds, []) => Some (cond_Zopp neg (digitsMV 10 ds))
        | _ => None
        end
      else None
  end.

(** StrUnsignedDecimalLiteral without [Infinity]: the digits of the
    significand read as an integer, and the decimal exponent. *)
Definition parseUnsignedDecimal (s : list ascii) : option (Z * Z) :=
  let '(ip, r1) := span isDecimalDigit s in
  let '(hasDot, fp, r2) :=
    match r1 with
    | "."%char :: r => let '(fp, r2) := span isDecimalDigit r in (true, fp, r2)
    | _ => (false, [], r1)
    end in
  match ip, fp with
  | [], [] => None
  | _, _ =>
      match parseExponentPart r2 with
      | Some e => Some (digitsMV 10 (ip ++ fp), e - Z.of_nat (length fp))
      | None => None
      end
  end.

Definition Infinity_literal : list ascii := list_ascii_of_string "Infinity".

Definition list_ascii_eqb (a b : list ascii) : bool :=
  String.eqb (string_of_list_ascii a) (string_of_list_ascii b).

Definition parseStrDecimalLiteral (s : list ascii) : Number.t :=
  let '(neg, body) :=
    match s with
    | "+"%char :: r => (false, r)
    | "-"%char :: r => (true, r)
    | _ => (false, s)
    end in
  if list_ascii_eqb body Infinity_literal then Number.infinity neg
  else match parseUnsignedDecimal body with
       | Some (m, e) => Number.of_decimal neg m e
       | None => Number.NaN
       end.

(** NonDecimalIntegerLiteral: [0b], [0o], [0x] (either case) and at least
    one digit of that radix, nothing after. *)
Definition nonDecimalRadix (c : ascii) : option Z :=
  let n := code c in
  if ((n =? 98) || (n =? 66))%nat then Some 2
  else if ((n =? 111) || (n =? 79))%nat then Some 8
  else if ((n =? 120) || (n =? 88))%nat then Some 16
  else None.

Definition parseNonDecimal (s : list ascii) : option Number.t :=
  match s with
  | "0"%char :: c :: ds =>
      match nonDecimalRadix c with
      | Some radix =>
          match ds with
          | [] => Some Number.NaN
          | _ => if forallb (isDigitOfRadix radix) ds
                 then Some (Number.of_Z (digitsMV radix ds))
                 else Some Number.NaN
          end
      | None => None
      end
  | _ => None
  end.

Definition StringToNumber (str : string) : Number.t :=
  match trim (list_ascii_of_string str) with
  | [] => Number.pos_zero
  | s => match parseNonDecimal s with
         | Some n => n
         | None => parseStrDecimalLiteral s
         end
  end.

(** ** Dates

    A [Date] holds a time value: milliseconds since 1970-01-01T00:00:00Z.
    The functions below are the day and year arithmetic of the language
    standard, on which [toISOString] is defined. *)

Module Date.

Definition msPerDay : Z := 86400000.

Definition Day (t : Z) : Z := t / msPerDay.
Definition TimeWithinDay (t : Z) : Z := t mod msPerDay.

Definition DaysInYear (y : Z) : Z :=
  if negb (y mod 4 =? 0) then 365
  else if negb (y mod 100 =? 0) then 366
  else if negb (y mod 400 =? 0) then 365
  else 366.

Definition DayFromYear (y : Z) : Z :=
  365 * (y - 1970) + (y - 1969) / 4 - (y - 1901) / 100 + (y - 1601) / 400.

(** The largest [y] with [DayFromYear y <= Day t]: an estimate from the
    mean length of a year, corrected by at most one year either way. *)
Definition YearFromTime (t : Z) : Z :=
  let d := Day t in
  let y := 1970 + d * 400 / 146097 in
  if DayFromYear (y + 1) <=? d then y + 1
  else if DayFromYear y <=? d then y
  else y - 1.

Definition InLeapYear (t : Z) : bool := DaysInYear (YearFromTime t) =? 366.

Definition DayWithinYear (t : Z) : Z := Day t - DayFromYear (YearFromTime t).

(** Month number, 0 for January to 11 for December. *)
Definition MonthFromTime (t : Z) : Z :=
  let d := DayWithinYear t in
  let l := if InLeapYear t then 1 else 0 in
  if d <? 31 then 0
  else if d <? 59 + l then 1
  else if d <? 90 + l then 2
  else if d <? 120 + l then 3
  else if d <? 151 + l then 4
  else if d <? 181 + l then 5
  else if d <? 212 + l then 6
  else if d <? 243 + l then 7
  else if d <? 273 + l then 8
  else if d <? 304 + l then 9
  else if d <? 334 + l then 10
  else 11.

(** Day of the month, from 1. *)
Definition DateFromTime (t : Z) : Z :=
  let d := DayWithinYear t in
  let l := if InLeapYear t then 1 else 0 in
  match MonthFromTime t with
  | 0 => d + 1
  | 1 => d - 30
  | 2 => d - 58 - l
  | 3 => d - 89 - l
  | 4 => d - 119 - l
  | 5 => d - 150 - l
  | 6 => d - 180 - l
  | 7 => d - 211 - l
  | 8 => d - 242 - l
  | 9 => d - 272 - l
  | 10 => d - 303 - l
  | _ => d - 333 - l
  end.

Definition HourFromTime (t : Z) : Z := (t / 3600000) mod 24.
Definition MinFromTime (t : Z) : Z := (t / 60000) mod 60.
Definition SecFromTime (t : Z) : Z := (t / 1000) mod 60.
Definition msFromTime (t : Z) : Z := t mod 1000.

Definition digitChar (n : Z) : ascii := ascii_of_nat (48 + Z.to_nat n).

(** The last [w] decimal digits of [n >= 0], with leading zeros. *)
Fixpoint padDigits (w : nat) (n : Z) : list ascii :=
  match w with
  | O => []
  | S w' => padDigits w' (n / 10) ++ [digitChar (n mod 10)]
  end.

(** Years 0 to 9999 are written with four digits, all others with a sign
    and six digits. *)
Definition yearString (y : Z) : list ascii :=
  if (0 <=? y) && (y <=? 9999) then padDigits 4 y
  else (if y <? 0 then "-"%char else "+"%char) :: padDigits 6 (Z.abs y).

(** The calendar date of [t] as [YYYY-MM-DD]. *)
Definition dateString (t : Z) : list ascii :=
  yearString (YearFromTime t) ++ "-"%char :: padDigits 2 (MonthFromTime t + 1)
    ++ "-"%char :: padDigits 2 (DateFromTime t).

Definition timeString (t : Z) : list ascii :=
  padDigits 2 (HourFromTime t) ++ ":"%char :: padDigits 2 (MinFromTime t)
    ++ ":"%char :: padDigits 2 (SecFromTime t)
    ++ "."%char :: padDigits 3 (msFromTime t).

(** [Date.prototype.toISOString] for a valid time value. *)
Definition toISOString (t : Z) : string :=
  string_of_list_ascii (dateString t ++ "T"%char :: timeString t ++ ["Z"%char]).

End Date.

(** [s.split(sep)[0]] for a one-character separator: the part of [s]
    before the first [sep], all of [s] when there is none. *)
Fixpoint beforeFirst (sep : ascii) (s : list ascii) : list ascii :=
  match s with
  | [] => []
  | c :: r => if Ascii.eqb c sep then [] else c :: beforeFirst sep r
  end.

Definition split0 (s : string) (sep : ascii) : string :=
  string_of_list_ascii (beforeFirst sep (list_ascii_of_string s)).

(** ** Values and form data

    The JavaScript values that reach the actions: what [FormData.get]
    returns (a string, a [File], or [null] for an absent field), the
    numbers produced by coercion, and [undefined]. *)

Inductive Value :=
| VUndefined
| VNull
| VString (s : string)
| VNumber (n : Number.t)
| VFile (name : string).

(** ToNumber: [null] is [+0], a string goes through [StringToNumber], a
    [File] is an object whose primitive is the string ["[object File]"]. *)
Definition ToNumber (v : Value) : Number.t :=
  match v with
  | VUndefined => Number.NaN
  | VNull => Number.pos_zero
  | VString s => StringToNumber s
  | VNumber n => n
  | VFile _ => StringToNumber "[object File]"
  end.

(** [a * b] *)
Definition js_mul (a b : Value) : Value :=
  VNumber (Number.mul (ToNumber a) (ToNumber b)).

(** An object literal: its own properties by name. *)
Abbreviation Object := (gmap string Value).

(** Property access [o.k], [undefined] when [o] has no property [k]. *)
Definition prop (o : Object) (k : string) : Value := default VUndefined (o !! k).

(** A form carrier is a list of entries in submission order; several
    entries may share a name. *)
Inductive FormDataEntryValue :=
| EntryString (s : string)
| EntryFile (name : string).

Definition FormData := list (string * FormDataEntryValue).

(** [formData.get(name)]: the value of the first entry called [name],
    [null] when there is none. *)
Fixpoint FormData_get (formData : FormData) (name : string) : Value :=
  match formData with
  | [] => VNull
  | (k, v) :: rest =>
      if String.eqb k name
      then match v with EntryString s => VString s | EntryFile f => VFile f end
      else FormData_get rest name
  end.

(** ** The validation library (zod 3)

    The fragment used by [FormSchema]: string, coerced number with a
    lower bound, and enum schemas, gathered in an object schema from which
    keys can be omitted; issues, the error maps that word them, and the
    flattening of issues into a field-to-messages object. *)

Module z.

(** [getParsedType] *)
Definition getParsedType (v : Value) : string :=
  match v with
  | VUndefined => "undefined"
  | VNull => "null"
  | VString _ => "string"
  | VNumber n => if Number.isNaN n then "nan" else "number"
  | VFile _ => "object"
  end.

Inductive ZodIssueCode :=
| invalid_type (expected received : string)
| invalid_enum_value (options : list string) (received : string)
| too_small (minimum : Z) (inclusive : bool).

Record ZodIssue := {
  issue_code : ZodIssueCode;
  issue_path : list string;
  issue_message : string;
}.

(** The parameters a schema is created with. *)
Record RawCreateParams := {
  invalid_type_error : option string;
  required_error : option string;
}.

Definition noParams : RawCreateParams :=
  {| invalid_type_error := None; required_error := None |}.

(** A bound added by [.gt] or [.gte]. *)
Record MinCheck := {
  check_value : Z;
  check_inclusive : bool;
  check_message : option string;
}.

Inductive ZodType :=
| ZodString (params : RawCreateParams)
| ZodNumber (coerce : bool) (checks : list MinCheck) (params : RawCreateParams)
| ZodEnum (values : list string) (params : RawCreateParams).

(** [util.joinValues]: ['a' | 'b'] *)
Fixpoint joinValues (values : list string) : string :=
  match values with
  | [] => EmptyString
  | [v] => "'" +:+ v +:+ "'"
  | v :: rest => "'" +:+ v +:+ "' | " +:+ joinValues rest
  end.

(** The library's default wording of an issue. *)
Definition defaultErrorMap (c : ZodIssueCode) : string :=
  match c with
  | invalid_type expected received =>
      if String.eqb received "undefined" then "Required"
      else "Expected " +:+ expected +:+ ", received " +:+ received
  | invalid_enum_value options received =>
      "Invalid enum value. Expected " +:+ joinValues options
        +:+ ", received '" +:+ received +:+ "'"
  | too_small minimum inclusive =>
      "Number must be " +:+
        (if inclusive then "greater than or equal to " else "greater than ")
        +:+ pretty minimum
  end.

(** The error map a schema gets from its creation parameters: it words
    only type errors, [required_error] for [undefined] input and
    [invalid_type_error] for any other, and leaves the rest to the
    default. *)
Definition schemaErrorMap (params : RawCreateParams) (c : ZodIssueCode)
    (data : Value) (defaultError : string) : string :=
  match c with
  | invalid_type _ _ =>
      match data with
      | VUndefined => default defaultError (required_error params)
      | _ => default defaultError (invalid_type_error params)
      end
  | _ => defaultError
  end.

(** [makeIssue]: a message given with the issue wins, otherwise the
    schema's error map speaks after the default one. *)
Definition makeIssue (params : RawCreateParams) (path : list string)
    (data : Value) (c : ZodIssueCode) (message : option string) : ZodIssue :=
  {| issue_code := c;
     issue_path := path;
     issue_message :=
       default (schemaErrorMap params c data (defaultErrorMap c)) message |}.

(** What parsing one value gives: the parsed value when the input is
    valid ([OK]) or has failed a check only ([DIRTY]), nothing when the
    parse was aborted ([INVALID]); with the issues raised. *)
Inductive SyncParseReturn :=
| OK (v : Value)
| DIRTY (v : Value)
| INVALID.

Definition ParseReturn : Type := SyncParseReturn * list ZodIssue.

(** The checks of a number schema, run in order on a number. *)
Fixpoint runChecks (params : RawCreateParams) (path : list string)
    (n : Number.t) (checks : list MinCheck) : list ZodIssue :=
  match checks with
  | [] => []
  | c :: rest =>
      let bound := Number.of_Z (check_value c) in
      let tooSmall :=
        if check_inclusive c then Number.ltb n bound else Number.leb n bound in
      (if tooSmall
       then [makeIssue params path (VNumber n)
               (too_small (check_value c) (check_inclusive c)) (check_message c)]
       else [])
      ++ runChecks params path n rest
  end.

(** [_parse] of a schema on an input found at [path]. *)
Definition parse (ty : ZodType) (path : list string) (input : Value)
  : ParseReturn :=
  match ty with
  | ZodString params =>
      match input with
      | VString _ => (OK input, [])
      | _ => (INVALID,
              [makeIssue params path input
                 (invalid_type "string" (getParsedType input)) None])
      end
  | ZodNumber coerce checks params =>
      let data := if coerce then VNumber (ToNumber input) else input in
      match data with
      | VNumber n =>
          if Number.isNaN n
          then (INVALID,
                [makeIssue params path data
                   (invalid_type "number" (getParsedType data)) None])
          else match runChecks params path n checks with
               | [] => (OK data, [])
               | issues => (DIRTY data, issues)
               end
      | _ => (INVALID,
              [makeIssue params path data
                 (invalid_type "number" (getParsedType data)) None])
      end
  | ZodEnum values params =>
      match input with
      | VString s =>
          if bool_decide (s ∈ values) then (OK input, [])
          else (INVALID,
                [makeIssue params path input
                   (invalid_enum_value values s) None])
      | _ => (INVALID,
              [makeIssue params path input
                 (invalid_type (joinValues values) (getParsedType input)) None])
      end
  end.

(** An object schema: its keys in declaration order with their schemas. *)
Definition ZodObject : Type := list (string * ZodType).

(** [schema.omit(mask)]: the keys of [schema] not set in [mask]. *)
Definition omit (mask : list string) (schema : ZodObject) : ZodObject :=
  filter (fun kv => fst kv ∉ mask) schema.

Inductive SafeParseReturn :=
| SafeParseSuccess (data : Object)
| SafeParseError (issues : list ZodIssue).

(** Every key of the shape is parsed, in order, on the property of that
    name, and the issues of all keys are kept.  The parse is valid only
    when every key is [OK]; the parsed values then make the result, a key
    being left out when its value is [undefined] and the input did not
    have it.  Properties outside the shape are dropped. *)
Fixpoint parseShape (shape : ZodObject) (data : Object)
  : option Object * list ZodIssue :=
  match shape with
  | [] => (Some ∅, [])
  | (k, ty) :: rest =>
      let '(r, issues) := parse ty [k] (prop data k) in
      let '(o, issues') := parseShape rest data in
      let o' :=
        match r, o with
        | OK v, Some obj =>
            match v, data !! k with
            | VUndefined, None => Some obj
            | _, _ => Some (<[k := v]> obj)
            end
        | _, _ => None
        end in
      (o', issues ++ issues')
  end.

Definition safeParse (schema : ZodObject) (data : Object) : SafeParseReturn :=
  match parseShape schema data with
  | (Some obj, _) => SafeParseSuccess obj
  | (None, issues) => SafeParseError issues
  end.

(** [error.flatten().fieldErrors]: the messages of the issues, in
    order, under the first element of their path. *)
Definition fieldErrors (issues : list ZodIssue) : gmap string (list string) :=
  fold_left
    (fun acc i =>
       match issue_path i with
       | [] => acc
       | k :: _ => <[k := default [] (acc !! k) ++ [issue_message i]]> acc
       end)
    issues ∅.

(** The messages of the issues filed under [k], in order. *)
Definition messagesAt (k : string) (issues : list ZodIssue) : list string :=
  issue_message <$> filter (fun i => head (issue_path i) = Some k) issues.

End z.

(** ** The invoice form schema

    The schemas of the three submitted fields are named so that the
    lemmas can speak of them; [FormSchema] lists them in the order of the
    source, between [id] and [date]. *)

Definition customerIdSchema : z.ZodType :=
  z.ZodString {| z.invalid_type_error := Some "PLEASE SELECT A CUSTOMER.";
                 z.required_error := None |}.

Definition amountSchema : z.ZodType :=
  z.ZodNumber true
    [ {| z.check_value := 0; z.check_inclusive := false;
         z.check_message := Some "PLEASE ENTER AN AMOUNT GREATER THAN $0." |} ]
    z.noParams.

Definition statusSchema : z.ZodType :=
  z.ZodEnum ["pending"; "paid"]
    {| z.invalid_type_error := Some "PLEASE SELECT AN INVOICE STATUS.";
       z.required_error := None |}.

Definition FormSchema : z.ZodObject :=
  [ ("id", z.ZodString z.noParams);
    ("customerId", customerIdSchema);
    ("amount", amountSchema);
    ("status", statusSchema);
    ("date", z.ZodString z.noParams) ].

Definition CreateInvoice : z.ZodObject := z.omit ["id"; "date"] FormSchema.

Definition UpdateInvoice : z.ZodObject := z.omit ["id"; "date"] FormSchema.

(** ** Effects

    An action runs against collaborators it does not own: the clock, the
    SQL store, the sign-in delegate, the cache and the navigation.  What
    the collaborators answer is the environment; what the action does to
    them is recorded in the world.  A computation takes a world and ends
    by returning a value or by throwing. *)

Inductive Exn :=
| AuthError (type : string)       (* an instance of AuthError or of a subclass *)
| RedirectError (url : string)    (* the signal thrown by [redirect] *)
| Error (message : string).       (* any other thrown value *)

Record InvoiceRow := {
  row_id : string;
  row_customer_id : Value;
  row_amount : Value;
  row_status : Value;
  row_date : Value;
}.

Definition Table : Type := list InvoiceRow.

(** The three statements of the actions, with their parameters in the
    order of the placeholders. *)
Inductive Statement :=
| INSERT_INTO_invoices (customer_id amount status date : Value)
| UPDATE_invoices (customer_id amount status : Value) (id : string)
| DELETE_FROM_invoices (id : string).

Record Env := {
  clock : Z;
  store : Statement -> Table -> Exn + Table;
  signIn : string -> FormData -> option Exn;
}.

Record World := {
  invoices : Table;
  issued : list Statement;
  revalidated : list string;
}.

Inductive Outcome (A : Type) :=
| Returned (a : A)
| Thrown (e : Exn).
Arguments Returned {A} a.
Arguments Thrown {A} e.

Definition M (A : Type) : Type := World -> Outcome A * World.

#[global] Instance M_ret : MRet M := fun A a w => (Returned a, w).

#[global] Instance M_bind : MBind M := fun A B k m w =>
  match m w with
  | (Returned a, w') => k a w'
  | (Thrown e, w') => (Thrown e, w')
  end.

Definition throw {A} (e : Exn) : M A := fun w => (Thrown e, w).

(** [try { body } catch (error) { handler }] *)
Definition try_catch {A} (body : M A) (handler : Exn -> M A) : M A := fun w =>
  match body w with
  | (Returned a, w') => (Returned a, w')
  | (Thrown e, w') => handler e w'
  end.

(** [new Date()], as its time value. *)
Definition newDate (env : Env) : M Z := fun w => (Returned (clock env), w).

(** [await sql`...`]: the statement is sent; the store either applies it
    or raises. *)
Definition sql (env : Env) (st : Statement) : M unit := fun w =>
  let w1 := {| invoices := invoices w;
               issued := issued w ++ [st];
               revalidated := revalidated w |} in
  match store env st (invoices w) with
  | inr tbl => (Returned tt, {| invoices := tbl;
                                issued := issued w1;
                                revalidated := revalidated w1 |})
  | inl e => (Thrown e, w1)
  end.

Definition revalidatePath (path : string) : M unit := fun w =>
  (Returned tt, {| invoices := invoices w;
                   issued := issued w;
                   revalidated := revalidated w ++ [path] |}).

(** [redirect] never returns: it throws its signal. *)
Definition redirect {A} (url : string) : M A := throw (RedirectError url).

(** [await signIn(provider, formData)] *)
Definition awaitSignIn (env : Env) (provider : string) (formData : FormData)
  : M unit :=
  match signIn env provider formData with
  | None => mret tt
  | Some e => throw e
  end.

(** ** The actions *)

Record State := {
  errors : option (gmap string (list string));
  message : option string;
}.

(** A [try] block either falls through or makes the function return. *)
Inductive Completion (A : Type) :=
| Normal
| Return (a : A).
Arguments Normal {A}.
Arguments Return {A} a.

Definition authenticate (env : Env) (prevState : option string)
    (formData : FormData) : M (option string) :=
  c ← try_catch
        (awaitSignIn env "credentials" formData;; mret Normal)
        (fun error =>
           match error with
           | AuthError type =>
               if String.eqb type "CredentialsSignin"
               then mret (Return (Some "INVALID CREDENTIALS."))
               else mret (Return (Some "SOMETHING WENT WRONG."))
           | _ => throw error
           end);
  match c with
  | Return r => mret r
  | Normal => mret None
  end.

(** The object handed to [safeParse] by both invoice forms. *)
Definition formFields (formData : FormData) : Object :=
  {[ "customerId" := FormData_get formData "customerId";
     "amount" := FormData_get formData "amount";
     "status" := FormData_get formData "status" ]}.

Definition createInvoice (env : Env) (prevState : State) (formData : FormData)
  : M State :=
  let validatedFields := z.safeParse CreateInvoice (formFields formData) in
  match validatedFields with
  | z.SafeParseError issues =>
      mret {| errors := Some (z.fieldErrors issues);
              message := Some "MISSING FIELDS. FAILED TO CREATE INVOICE." |}
  | z.SafeParseSuccess data =>
      let customerId := prop data "customerId" in
      let amount := prop data "amount" in
      let status := prop data "status" in
      let amountInCents := js_mul amount (VNumber (Number.of_Z 100)) in
      now ← newDate env;
      let date := VString (split0 (Date.toISOString now) "T") in
      c ← try_catch
            (sql env (INSERT_INTO_invoices customerId amountInCents status date);;
             mret Normal)
            (fun error =>
               mret (Return
                 {| errors := None;
                    message := Some "DATABASE ERROR: FAILED TO CREATE INVOICE." |}));
      match c with
      | Return r => mret r
      | Normal =>
          revalidatePath "/dashboard/invoices";;
          redirect "/dashboard/invoices"
      end
  end.

Definition updateInvoice (env : Env) (id : string) (prevState : State)
    (formData : FormData) : M State :=
  let validatedFields := z.safeParse UpdateInvoice (formFields formData) in
  match validatedFields with
  | z.SafeParseError issues =>
      mret {| errors := Some (z.fieldErrors issues);
              message := Some "MISSING FIELDS. FAILED TO UPDATE INVOICE." |}
  | z.SafeParseSuccess data =>
      let customerId := prop data "customerId" in
      let amount := prop data "amount" in
      let status := prop data "status" in
      let amountInCents := js_mul amount (VNumber (Number.of_Z 100)) in
      c ← try_catch
            (sql env (UPDATE_invoices customerId amountInCents status id);;
             mret Normal)
            (fun error =>
               mret (Return
                 {| errors := None;
                    message := Some "DATABASE ERROR: FAILED TO UPDATE INVOICE." |}));
      match c with
      | Return r => mret r
      | Normal =>
          revalidatePath "/dashboard/invoices";;
          redirect "/dashboard/invoices"
      end
  end.

Definition deleteInvoice (env : Env) (id : string) : M State :=
  try_catch
    (sql env (DELETE_FROM_invoices id);;
     revalidatePath "/dashboard/invoices";;
     mret {| errors := None; message := Some "DELETED INVOICE." |})
    (fun error =>
       mret {| errors := None;
               message := Some "DATABASE ERROR: FAILED TO DELETE INVOICE." |}).

(** ** The store's side of the statements

    What the SQL text of each statement means on the invoice table.  The
    store is free to raise instead; when it accepts a statement and
    implements SQL, this is the table that results.  The identifier of an
    inserted row is the store's choice. *)

Definition runStatement (newId : string) (st : Statement) (tbl : Table) : Table :=
  match st with
  | INSERT_INTO_invoices customer_id amount status date =>
      tbl ++ [ {| row_id := newId; row_customer_id := customer_id;
                  row_amount := amount; row_status := status;
                  row_date := date |} ]
  | UPDATE_invoices customer_id amount status id =>
      map (fun r =>
             if String.eqb (row_id r) id
             then {| row_id := row_id r; row_customer_id := customer_id;
                     row_amount := amount; row_status := status;
                     row_date := row_date r |}
             else r) tbl
  | DELETE_FROM_invoices id =>
      filter (fun r => row_id r ≠ id) tbl
  end.

Definition implementsSQL (st : Statement -> Table -> Exn + Table) : Prop :=
  forall s tbl tbl', st s tbl = inr tbl' ->
    exists newId, tbl' = runStatement newId s tbl.

(** A store that accepts everything, naming inserted rows by their rank. *)
Definition acceptingStore (st : Statement) (tbl : Table) : Exn + Table :=
  inr (runStatement (pretty (length tbl)) st tbl).

(** A store that is unreachable. *)
Definition failingStore (st : Statement) (tbl : Table) : Exn + Table :=
  inl (Error "connection refused").

(** ** Reading the field rules

    [validFields formData customerId amount status]: the form carries a
    string [customerId], an amount that coerces to the number [amount],
    which is not NaN and not [<= 0], and a status that is one of the two
    enumerated strings. *)

Definition validFields (formData : FormData)
    (customerId : string) (amount : Number.t) (status : string) : Prop :=
  FormData_get formData "customerId" = VString customerId /\
  ToNumber (FormData_get formData "amount") = amount /\
  Number.isNaN amount = false /\
  Number.leb amount (Number.of_Z 0) = false /\
  FormData_get formData "status" = VString status /\
  (status = "pending" \/ status = "paid").

(** The object a successful parse of such a form gives. *)
Definition validatedData (customerId : string) (amount : Number.t)
    (status : string) : Object :=
  <["customerId" := VString customerId]>
    (<["amount" := VNumber amount]> (<["status" := VString status]> ∅)).

(** The date an invoice created at time [t] is given. *)
Definition today (t : Z) : Value := VString (split0 (Date.toISOString t) "T"%char).

Definition invoicesPath : string := "/dashboard/invoices".

(** The world after a statement was sent, and after the cache entry of
    the invoices list was invalidated. *)
Definition sent (st : Statement) (w : World) : World :=
  {| invoices := invoices w; issued := issued w ++ [st];
     revalidated := revalidated w |}.

Definition applied (st : Statement) (tbl : Table) (w : World) : World :=
  {| invoices := tbl; issued := issued w ++ [st];
     revalidated := revalidated w ++ [invoicesPath] |}.

(** What a field contributes to a validation report: the messages [l]
    filed under its own name, none when the field is accepted and one
    when it is not. *)
Definition contributes (f : string) (r : z.ParseReturn) (l : list string)
    (accepted : Prop) : Prop :=
  (forall k, z.messagesAt k (snd r) = if decide (f = k) then l else []) /\
  (length l <= 1)%nat /\
  (l = [] <-> accepted) /\
  (l = [] -> exists v, fst r = z.OK v).

(** ** Sample runs *)

Module Example.

(** 2023-11-14T22:13:20.000Z *)
Definition now : Z := 1700000000000.

(** A store that accepts, a sign-in that succeeds. *)
Definition env : Env :=
  {| clock := now; store := acceptingStore; signIn := fun _ _ => None |}.

(** A store that is down, a sign-in that rejects the credentials. *)
Definition envDown : Env :=
  {| clock := now; store := failingStore;
     signIn := fun _ _ => Some (AuthError "CredentialsSignin") |}.

(** One invoice, taken from the seed data, under the identifier [X]. *)
Definition world : World :=
  {| invoices :=
       [ {| row_id := "X";
            row_customer_id := VString "3958dc9e-787f-4377-85e9-fec4b6a6442a";
            row_amount := VNumber (Number.of_Z 1250);
            row_status := VString "paid";
            row_date := VString "2023-06-17" |} ];
     issued := [];
     revalidated := [] |}.

Definition noState : State := {| errors := None; message := None |}.

Definition form (customerId amount status : string) : FormData :=
  [ ("customerId", EntryString customerId);
    ("amount", EntryString amount);
    ("status", EntryString status) ].

Definition delba : string := "3958dc9e-712f-4377-85e9-fec4b6a6442a".

(** A store that refuses every INSERT and applies the other statements,
    and one that refuses every UPDATE and applies the others. *)
Definition insertRefused (st : Statement) (tbl : Table) : Exn + Table :=
  match st with
  | INSERT_INTO_invoices _ _ _ _ => inl (Error "insert refused")
  | _ => acceptingStore st tbl
  end.

Definition updateRefused (st : Statement) (tbl : Table) : Exn + Table :=
  match st with
  | UPDATE_invoices _ _ _ _ => inl (Error "update refused")
  | _ => acceptingStore st tbl
  end.

Definition envInsertRefused : Env :=
  {| clock := now; store := insertRefused; signIn := fun _ _ => None |}.

Definition envUpdateRefused : Env :=
  {| clock := now; store := updateRefused; signIn := fun _ _ => None |}.

End Example.

(** ** Flattened errors *)

Section FieldErrors.

Implicit Types (issues : list z.ZodIssue) (k : string)
               (acc : gmap string (list string)).

Lemma fieldErrors_fold issues acc k :
  fold_left
    (fun acc i =>
       match z.issue_path i with
       | [] => acc
       | k' :: _ => <[k' := default [] (acc !! k') ++ [z.issue_message i]]> acc
       end)
    issues acc !! k =
  match z.messagesAt k issues with
  | [] => acc !! k
  | ms => Some (default [] (acc !! k) ++ ms)
  end.
Proof.
  revert acc. induction issues as [|i rest IH]; intros acc; [reflexivity|].
  cbn [fold_left]. rewrite IH. unfold z.messagesAt.
  rewrite filter_cons.
  destruct (z.issue_path i) as [|k' p] eqn:Hp; cbn [head].
  - rewrite decide_False by discriminate. reflexivity.
  - destruct (decide (k' = k)) as [->|Hne].
    + rewrite decide_True by reflexivity.
      rewrite lookup_insert_eq, fmap_cons. cbn [default].
      destruct (z.issue_message <$> filter _ rest) as [|m ms] eqn:Hf.
      * reflexivity.
      * cbv [id]. rewrite <- app_assoc. reflexivity.
    + rewrite decide_False by congruence.
      rewrite lookup_insert_ne by exact Hne. reflexivity.
Qed.

(** A field has an entry exactly when an issue was filed under it, and
    the entry lists the messages of those issues in order. *)
Lemma fieldErrors_lookup issues k :
  z.fieldErrors issues !! k =
  match z.messagesAt k issues with
  | [] => None
  | ms => Some ms
  end.
Proof.
  unfold z.fieldErrors. rewrite fieldErrors_fold.
  rewrite lookup_empty. destruct (z.messagesAt k issues); reflexivity.
Qed.

Lemma messagesAt_app k issues1 issues2 :
  z.messagesAt k (issues1 ++ issues2) =
  z.messagesAt k issues1 ++ z.messagesAt k issues2.
Proof. unfold z.messagesAt. rewrite filter_app, fmap_app. reflexivity. Qed.

End FieldErrors.

(** ** Parsing the three fields *)

Section Fields.

Import z.

Lemma CreateInvoice_shape :
  CreateInvoice =
  [ ("customerId", customerIdSchema); ("amount", amountSchema);
    ("status", statusSchema) ].
Proof. reflexivity. Qed.

Lemma UpdateInvoice_shape : UpdateInvoice = CreateInvoice.
Proof. reflexivity. Qed.

Lemma parse_customerId v :
  parse customerIdSchema ["customerId"] v =
  match v with
  | VString _ => (OK v, [])
  | _ => (INVALID,
          [ {| issue_code := invalid_type "string" (getParsedType v);
               issue_path := ["customerId"];
               issue_message :=
                 match v with
                 | VUndefined => "Required"
                 | _ => "PLEASE SELECT A CUSTOMER."
                 end |} ])
  end.
Proof. destruct v; reflexivity. Qed.

Lemma parse_amount v :
  parse amountSchema ["amount"] v =
  let n := ToNumber v in
  if Number.isNaN n
  then (INVALID,
        [ {| issue_code := invalid_type "number" "nan";
             issue_path := ["amount"];
             issue_message := "Expected number, received nan" |} ])
  else if Number.leb n (Number.of_Z 0)
  then (DIRTY (VNumber n),
        [ {| issue_code := too_small 0 false;
             issue_path := ["amount"];
             issue_message := "PLEASE ENTER AN AMOUNT GREATER THAN $0." |} ])
  else (OK (VNumber n), []).
Proof.
  unfold amountSchema, parse. cbv zeta.
  destruct (Number.isNaN (ToNumber v)) eqn:Hnan.
  - unfold getParsedType. rewrite Hnan. reflexivity.
  - cbn [runChecks check_inclusive check_value check_message].
    destruct (Number.leb (ToNumber v) (Number.of_Z 0)); reflexivity.
Qed.

Lemma parse_status v :
  parse statusSchema ["status"] v =
  match v with
  | VString s =>
      if bool_decide (s = "pending" \/ s = "paid") then (OK v, [])
      else (INVALID,
            [ {| issue_code := invalid_enum_value ["pending"; "paid"] s;
                 issue_path := ["status"];
                 issue_message :=
                   "Invalid enum value. Expected 'pending' | 'paid', received '"
                     +:+ s +:+ "'" |} ])
  | _ => (INVALID,
          [ {| issue_code := invalid_type "'pending' | 'paid'" (getParsedType v);
               issue_path := ["status"];
               issue_message :=
                 match v with
                 | VUndefined => "Required"
                 | _ => "PLEASE SELECT AN INVOICE STATUS."
                 end |} ])
  end.
Proof.
  destruct v; try reflexivity.
  unfold statusSchema, parse.
  assert (Heq : bool_decide (s ∈ ["pending"; "paid"])
                = bool_decide (s = "pending" \/ s = "paid")).
  { apply bool_decide_ext. rewrite !elem_of_cons, elem_of_nil. tauto. }
  rewrite Heq. destruct (bool_decide _); reflexivity.
Qed.

Lemma prop_formFields fd k :
  k = "customerId" \/ k = "amount" \/ k = "status" ->
  prop (formFields fd) k = FormData_get fd k /\
  formFields fd !! k = Some (FormData_get fd k).
Proof. intros [-> | [-> | ->]]; split; reflexivity. Qed.

(** The three fields are parsed independently; the parse succeeds
    when all three are [OK] and otherwise reports the issues of all
    three, in the order of the schema. *)
Lemma safeParse_formFields fd :
  safeParse CreateInvoice (formFields fd) =
  let pc := parse customerIdSchema ["customerId"] (FormData_get fd "customerId") in
  let pa := parse amountSchema ["amount"] (FormData_get fd "amount") in
  let ps := parse statusSchema ["status"] (FormData_get fd "status") in
  match fst pc, fst pa, fst ps with
  | OK c, OK a, OK s =>
      SafeParseSuccess
        (<["customerId" := c]> (<["amount" := a]> (<["status" := s]> ∅)))
  | _, _, _ => SafeParseError (snd pc ++ snd pa ++ snd ps)
  end.
Proof.
  unfold safeParse. rewrite CreateInvoice_shape. cbn [parseShape].
  destruct (prop_formFields fd "customerId") as [-> ->]; [auto|].
  destruct (prop_formFields fd "amount") as [-> ->]; [auto|].
  destruct (prop_formFields fd "status") as [-> ->]; [auto|].
  destruct (parse customerIdSchema _ _) as [rc ic].
  destruct (parse amountSchema _ _) as [ra ia].
  destruct (parse statusSchema _ _) as [rs i_s].
  cbn [fst snd]. rewrite app_nil_r.
  destruct rc as [c| |], ra as [a| |], rs as [s| |]; try reflexivity;
    try (destruct c; reflexivity); try (destruct a; reflexivity).
  destruct c, a, s; reflexivity.
Qed.

End Fields.

(** ** Validation of a form *)

Section FormValidation.

Import z.

Lemma safeParse_valid fd c n s :
  validFields fd c n s ->
  safeParse CreateInvoice (formFields fd) = SafeParseSuccess (validatedData c n s).
Proof.
  intros (Hc & Hn & Hnan & Hle & Hs & Hin).
  rewrite safeParse_formFields, parse_customerId, parse_amount, parse_status.
  cbv zeta. rewrite Hc, Hn, Hnan, Hle, Hs.
  rewrite bool_decide_true by exact Hin. reflexivity.
Qed.

Lemma safeParse_success_inv fd data :
  safeParse CreateInvoice (formFields fd) = SafeParseSuccess data ->
  exists c n s, validFields fd c n s /\ data = validatedData c n s.
Proof.
  rewrite safeParse_formFields, parse_customerId, parse_amount, parse_status.
  cbv zeta. unfold validFields.
  destruct (FormData_get fd "customerId") as [| |c| |] eqn:Hc;
    cbn [fst snd]; try discriminate.
  destruct (Number.isNaN (ToNumber (FormData_get fd "amount"))) eqn:Hnan;
    cbn [fst snd]; try discriminate.
  destruct (Number.leb (ToNumber (FormData_get fd "amount")) (Number.of_Z 0))
    eqn:Hle; cbn [fst snd]; try discriminate.
  destruct (FormData_get fd "status") as [| |s| |] eqn:Hs;
    cbn [fst snd]; try discriminate.
  destruct (bool_decide (s = "pending" \/ s = "paid")) eqn:Hin;
    cbn [fst snd]; try discriminate.
  intros [= <-]. apply bool_decide_eq_true in Hin.
  exists c, (ToNumber (FormData_get fd "amount")), s. auto 10.
Qed.

(** The issues of a rejected form are those of its three fields. *)
Lemma safeParse_error_inv fd issues :
  safeParse CreateInvoice (formFields fd) = SafeParseError issues ->
  issues =
    snd (parse customerIdSchema ["customerId"] (FormData_get fd "customerId"))
    ++ snd (parse amountSchema ["amount"] (FormData_get fd "amount"))
    ++ snd (parse statusSchema ["status"] (FormData_get fd "status")).
Proof.
  rewrite safeParse_formFields. cbv zeta.
  destruct (parse customerIdSchema ["customerId"] _) as [[c| |] ic],
           (parse amountSchema ["amount"] _) as [[a| |] ia],
           (parse statusSchema ["status"] _) as [[s| |] i_s];
    cbn [fst snd]; congruence.
Qed.

(** A form is either valid or rejected with at least one issue. *)
Lemma safeParse_cases fd :
  (exists c n s, validFields fd c n s) \/
  (exists issues, safeParse CreateInvoice (formFields fd) = SafeParseError issues).
Proof.
  destruct (safeParse CreateInvoice (formFields fd)) as [data|issues] eqn:H.
  - left. apply safeParse_success_inv in H as (c & n & s & Hv & _). eauto.
  - right. eauto.
Qed.

End FormValidation.

(** ** The actions, case by case *)

Section Actions.

Variables (env : Env) (prevState : State) (formData : FormData) (w : World).

Lemma createInvoice_invalid issues :
  z.safeParse CreateInvoice (formFields formData) = z.SafeParseError issues ->
  createInvoice env prevState formData w =
  (Returned {| errors := Some (z.fieldErrors issues);
               message := Some "MISSING FIELDS. FAILED TO CREATE INVOICE." |}, w).
Proof. intros H. unfold createInvoice. rewrite H. reflexivity. Qed.

Lemma createInvoice_valid c n s :
  validFields formData c n s ->
  createInvoice env prevState formData w =
  let st := INSERT_INTO_invoices (VString c)
              (VNumber (Number.mul n (Number.of_Z 100))) (VString s)
              (today (clock env)) in
  match store env st (invoices w) with
  | inr tbl => (Thrown (RedirectError invoicesPath), applied st tbl w)
  | inl _ =>
      (Returned {| errors := None;
                   message := Some "DATABASE ERROR: FAILED TO CREATE INVOICE." |},
       sent st w)
  end.
Proof.
  intros H. unfold createInvoice. rewrite (safeParse_valid _ _ _ _ H).
  change (prop (validatedData c n s) "customerId") with (VString c).
  change (prop (validatedData c n s) "amount") with (VNumber n).
  change (prop (validatedData c n s) "status") with (VString s).
  cbv zeta.
  unfold mbind, M_bind, mret, M_ret, try_catch, newDate, sql, js_mul,
    revalidatePath, redirect, throw, today, applied, sent. cbn [ToNumber].
  destruct (store env _ (invoices w)); reflexivity.
Qed.


Variable id : string.

Lemma updateInvoice_invalid issues :
  z.safeParse UpdateInvoice (formFields formData) = z.SafeParseError issues ->
  updateInvoice env id prevState formData w =
  (Returned {| errors := Some (z.fieldErrors issues);
               message := Some "MISSING FIELDS. FAILED TO UPDATE INVOICE." |}, w).
Proof. intros H. unfold updateInvoice. rewrite H. reflexivity. Qed.

Lemma updateInvoice_valid c n s :
  validFields formData c n s ->
  updateInvoice env id prevState formData w =
  let st := UPDATE_invoices (VString c)
              (VNumber (Number.mul n (Number.of_Z 100))) (VString s) id in
  match store env st (invoices w) with
  | inr tbl => (Thrown (RedirectError invoicesPath), applied st tbl w)
  | inl _ =>
      (Returned {| errors := None;
                   message := Some "DATABASE ERROR: FAILED TO UPDATE INVOICE." |},
       sent st w)
  end.
Proof.
  intros H. unfold updateInvoice. rewrite UpdateInvoice_shape.
  rewrite (safeParse_valid _ _ _ _ H).
  change (prop (validatedData c n s) "customerId") with (VString c).
  change (prop (validatedData c n s) "amount") with (VNumber n).
  change (prop (validatedData c n s) "status") with (VString s).
  cbv zeta.
  unfold mbind, M_bind, mret, M_ret, try_catch, sql, js_mul,
    revalidatePath, redirect, throw, applied, sent. cbn [ToNumber].
  destruct (store env _ (invoices w)); reflexivity.
Qed.

Lemma deleteInvoice_run :
  deleteInvoice env id w =
  let st := DELETE_FROM_invoices id in
  match store env st (invoices w) with
  | inr tbl =>
      (Returned {| errors := None; message := Some "DELETED INVOICE." |},
       applied st tbl w)
  | inl _ =>
      (Returned {| errors := None;
                   message := Some "DATABASE ERROR: FAILED TO DELETE INVOICE." |},
       sent st w)
  end.
Proof.
  unfold deleteInvoice, mbind, M_bind, mret, M_ret, try_catch, sql,
    revalidatePath, applied, sent. cbv zeta.
  destruct (store env _ (invoices w)); reflexivity.
Qed.

End Actions.

(** ** The date of a new invoice *)

Section DateFormat.

Import Date.

Lemma digitChar_mod10 n : isDecimalDigit (digitChar (n mod 10)) = true.
Proof.
  assert (H : 0 <= n mod 10 < 10) by (apply Z.mod_pos_bound; lia).
  assert (Hd : n mod 10 = 0 \/ n mod 10 = 1 \/ n mod 10 = 2 \/ n mod 10 = 3
               \/ n mod 10 = 4 \/ n mod 10 = 5 \/ n mod 10 = 6 \/ n mod 10 = 7
               \/ n mod 10 = 8 \/ n mod 10 = 9) by lia.
  repeat (destruct Hd as [-> | Hd]; [reflexivity|]). rewrite Hd. reflexivity.
Qed.

Lemma padDigits_digits w n : Forall (fun c => isDecimalDigit c = true) (padDigits w n).
Proof.
  revert n. induction w as [|w IH]; intros n; cbn [padDigits].
  - constructor.
  - apply Forall_app. split; [apply IH|].
    constructor; [apply digitChar_mod10 | constructor].
Qed.

Lemma length_padDigits w n : length (padDigits w n) = w.
Proof.
  revert n. induction w as [|w IH]; intros n; cbn [padDigits]; [reflexivity|].
  rewrite length_app, IH. cbn. lia.
Qed.

Lemma digit_not_T c : isDecimalDigit c = true -> Ascii.eqb c "T"%char = false.
Proof.
  intros H. destruct (Ascii.eqb c "T"%char) eqn:E; [|reflexivity].
  apply Ascii.eqb_eq in E. subst c. discriminate H.
Qed.

Lemma padDigits_no_T w n : Forall (fun c => Ascii.eqb c "T"%char = false) (padDigits w n).
Proof.
  eapply Forall_impl; [apply padDigits_digits | apply digit_not_T].
Qed.

Lemma dateString_no_T t : Forall (fun c => Ascii.eqb c "T"%char = false) (dateString t).
Proof.
  unfold dateString. apply Forall_app; split.
  - unfold yearString. destruct (_ && _); [apply padDigits_no_T|].
    apply Forall_cons; split; [|apply padDigits_no_T].
    destruct (_ <? _); reflexivity.
  - apply Forall_cons; split; [reflexivity|].
    apply Forall_app; split; [apply padDigits_no_T|].
    apply Forall_cons; split; [reflexivity | apply padDigits_no_T].
Qed.

Lemma beforeFirst_app sep a b :
  Forall (fun c => Ascii.eqb c sep = false) a ->
  beforeFirst sep (a ++ sep :: b) = a.
Proof.
  induction 1 as [|c a Hc _ IH]; cbn [beforeFirst app].
  - rewrite Ascii.eqb_refl. reflexivity.
  - rewrite Hc, IH. reflexivity.
Qed.

Lemma length_string_of_list_ascii l :
  String.length (string_of_list_ascii l) = length l.
Proof. induction l as [|c l IH]; cbn; [reflexivity | rewrite IH; reflexivity]. Qed.

(** The date given to a new invoice is the date part of the ISO text
    of the clock reading. *)
Lemma today_dateString t : today t = VString (string_of_list_ascii (dateString t)).
Proof.
  unfold today, split0, toISOString.
  rewrite list_ascii_of_string_of_list_ascii.
  rewrite beforeFirst_app by apply dateString_no_T. reflexivity.
Qed.

(** In the years 0 to 9999 it reads [YYYY-MM-DD]: ten characters, the
    year on four digits, the month and the day on two. *)
Lemma dateString_YYYY_MM_DD t :
  0 <= YearFromTime t <= 9999 ->
  dateString t =
    padDigits 4 (YearFromTime t) ++ "-"%char ::
    padDigits 2 (MonthFromTime t + 1) ++ "-"%char ::
    padDigits 2 (DateFromTime t).
Proof.
  intros [H0 H1]. unfold dateString, yearString.
  apply Z.leb_le in H0, H1. rewrite H0, H1. reflexivity.
Qed.

(** [YearFromTime] is the year of the standard: the one whose first day
    is the last not after the day of [t]. *)
Lemma YearFromTime_spec t :
  DayFromYear (YearFromTime t) <= Day t < DayFromYear (YearFromTime t + 1).
Proof.
  unfold YearFromTime. cbv zeta.
  set (d := Day t). clearbody d.
  destruct (Z.leb_spec (DayFromYear (1970 + d * 400 / 146097 + 1)) d) as [H1|H1].
  - split; [exact H1|]. revert H1. unfold DayFromYear.
    Z.div_mod_to_equations; lia.
  - destruct (Z.leb_spec (DayFromYear (1970 + d * 400 / 146097)) d) as [H2|H2].
    + split; [exact H2 | exact H1].
    + split.
      * revert H2. unfold DayFromYear. Z.div_mod_to_equations; lia.
      * replace (1970 + d * 400 / 146097 - 1 + 1) with (1970 + d * 400 / 146097) by lia.
        exact H2.
Qed.

(** A year is as long as the distance between its first day and the
    next year's. *)
Lemma DayFromYear_succ y : DayFromYear (y + 1) = DayFromYear y + DaysInYear y.
Proof.
  unfold DayFromYear, DaysInYear.
  destruct (Z.eqb_spec (y mod 4) 0), (Z.eqb_spec (y mod 100) 0),
           (Z.eqb_spec (y mod 400) 0); cbn [negb];
    Z.div_mod_to_equations; lia.
Qed.

Lemma DaysInYear_cases y : DaysInYear y = 365 \/ DaysInYear y = 366.
Proof.
  unfold DaysInYear.
  destruct (negb _); [auto|]. destruct (negb _); [auto|]. destruct (negb _); auto.
Qed.

Lemma DayWithinYear_range t :
  0 <= DayWithinYear t < DaysInYear (YearFromTime t).
Proof.
  unfold DayWithinYear. pose proof (YearFromTime_spec t) as H.
  rewrite DayFromYear_succ in H. lia.
Qed.

Ltac split_month_table :=
  repeat match goal with
         | |- context [?a <? ?b] => destruct (Z.ltb_spec a b)
         end.

Lemma MonthFromTime_range t : 0 <= MonthFromTime t <= 11.
Proof. unfold MonthFromTime. cbv zeta. split_month_table; lia. Qed.

Lemma DateFromTime_range t : 1 <= DateFromTime t <= 31.
Proof.
  pose proof (DayWithinYear_range t) as Hd.
  unfold DateFromTime, MonthFromTime, InLeapYear in *. cbv zeta.
  destruct (Z.eqb_spec (DaysInYear (YearFromTime t)) 366) as [E|E].
  - rewrite E in Hd. split_month_table; lia.
  - destruct (DaysInYear_cases (YearFromTime t)) as [E'|E']; [|contradiction].
    rewrite E' in Hd. split_month_table; lia.
Qed.

(** The digits written are those of the number: read back in base ten
    they give it again, when it fits the width. *)
Lemma digitValue_digitChar n : digitValue (digitChar (n mod 10)) = n mod 10.
Proof.
  assert (H : 0 <= n mod 10 < 10) by (apply Z.mod_pos_bound; lia).
  assert (Hd : n mod 10 = 0 \/ n mod 10 = 1 \/ n mod 10 = 2 \/ n mod 10 = 3
               \/ n mod 10 = 4 \/ n mod 10 = 5 \/ n mod 10 = 6 \/ n mod 10 = 7
               \/ n mod 10 = 8 \/ n mod 10 = 9) by lia.
  repeat (destruct Hd as [-> | Hd]; [reflexivity|]). rewrite Hd. reflexivity.
Qed.

Lemma digitsMV_padDigits w n :
  digitsMV 10 (padDigits w n) = n mod 10 ^ Z.of_nat w.
Proof.
  revert n. induction w as [|w IH]; intros n.
  - cbn. rewrite Z.mod_1_r. reflexivity.
  - cbn [padDigits]. unfold digitsMV in *. rewrite fold_left_app. cbn [fold_left].
    rewrite IH, digitValue_digitChar.
    rewrite Nat2Z.inj_succ, Z.pow_succ_r by lia.
    rewrite Z.rem_mul_r by lia. lia.
Qed.

Lemma padDigits_reads_back w n :
  0 <= n < 10 ^ Z.of_nat w -> digitsMV 10 (padDigits w n) = n.
Proof. intros H. rewrite digitsMV_padDigits. apply Z.mod_small, H. Qed.

End DateFormat.

(** ** Creating an invoice *)

Lemma FormData_get_cases formData k :
  FormData_get formData k = VNull \/
  (exists s, FormData_get formData k = VString s) \/
  (exists f, FormData_get formData k = VFile f).
Proof.
  induction formData as [|[k' v] rest IH]; cbn [FormData_get]; [auto|].
  destruct (String.eqb k' k); [|exact IH]. destruct v; eauto.
Qed.

(** C1. A form with customerId 3958dc9e-712f-4377-85e9-fec4b6a6442a,
    amount 250 and status paid passes validation; when the store accepts
    the insert, exactly one statement is sent, an INSERT carrying that
    customer, the amount 25000 (250 times 100), the status paid and the
    date of the clock reading, which is the date part of its ISO text and
    reads YYYY-MM-DD in the years 0 to 9999 (ten characters: year on four
    digits, month and day on two); the invoices list is then invalidated
    and the action ends by the redirect, returning nothing. *)
Theorem createInvoice_round_trip env prevState formData w tbl :
  let st :=
    INSERT_INTO_invoices (VString "3958dc9e-712f-4377-85e9-fec4b6a6442a")
      (VNumber (Number.of_Z 25000)) (VString "paid") (today (clock env)) in
  FormData_get formData "customerId" = VString "3958dc9e-712f-4377-85e9-fec4b6a6442a" ->
  FormData_get formData "amount" = VString "250" ->
  FormData_get formData "status" = VString "paid" ->
  store env st (invoices w) = inr tbl ->
  z.safeParse CreateInvoice (formFields formData) =
    z.SafeParseSuccess
      (validatedData "3958dc9e-712f-4377-85e9-fec4b6a6442a" (Number.of_Z 250) "paid") /\
  Number.mul (Number.of_Z 250) (Number.of_Z 100) = Number.of_Z 25000 /\
  Number.to_Z (Number.of_Z 25000) = Some 25000 /\
  today (clock env) = VString (string_of_list_ascii (Date.dateString (clock env))) /\
  (0 <= Date.YearFromTime (clock env) <= 9999 ->
   Date.dateString (clock env) =
     Date.padDigits 4 (Date.YearFromTime (clock env)) ++ "-"%char ::
     Date.padDigits 2 (Date.MonthFromTime (clock env) + 1) ++ "-"%char ::
     Date.padDigits 2 (Date.DateFromTime (clock env)) /\
   length (Date.dateString (clock env)) = 10%nat) /\
  createInvoice env prevState formData w =
    (Thrown (RedirectError "/dashboard/invoices"),
     {| invoices := tbl;
        issued := issued w ++ [st];
        revalidated := revalidated w ++ ["/dashboard/invoices"] |}).
Proof.
  intros st Hc Ha Hs Hstore.
  assert (Hv : validFields formData "3958dc9e-712f-4377-85e9-fec4b6a6442a"
                 (Number.of_Z 250) "paid").
  { unfold validFields. rewrite Hc, Ha, Hs. repeat split; auto. }
  split; [apply safeParse_valid, Hv|].
  split; [reflexivity|]. split; [reflexivity|].
  split; [apply today_dateString|]. split.
  - intros Hy. rewrite dateString_YYYY_MM_DD by exact Hy. split; [reflexivity|].
    rewrite length_app, length_padDigits. cbn [length].
    rewrite length_app, !length_padDigits. reflexivity.
  - rewrite (createInvoice_valid _ _ _ _ _ _ _ Hv). cbv zeta.
    change (Number.mul (Number.of_Z 250) (Number.of_Z 100)) with (Number.of_Z 25000).
    fold st. rewrite Hstore. reflexivity.
Qed.

Lemma createInvoice_round_trip_witness :
  createInvoice Example.env Example.noState
    (Example.form Example.delba "250" "paid") Example.world =
  (Thrown (RedirectError "/dashboard/invoices"),
   {| invoices :=
        invoices Example.world ++
        [ {| row_id := "1"; row_customer_id := VString Example.delba;
             row_amount := VNumber (Number.of_Z 25000);
             row_status := VString "paid";
             row_date := VString "2023-11-14" |} ];
      issued :=
        [ INSERT_INTO_invoices (VString Example.delba)
            (VNumber (Number.of_Z 25000)) (VString "paid")
            (VString "2023-11-14") ];
      revalidated := ["/dashboard/invoices"] |}).
Proof.
  apply (createInvoice_round_trip Example.env Example.noState
           (Example.form Example.delba "250" "paid") Example.world).
  - reflexivity.
  - reflexivity.
  - reflexivity.
  - reflexivity.
Defined.


(** ** Rejected forms *)

Section Rejections.

Variables (env : Env) (prevState : State) (id : string)
          (formData : FormData) (w : World).

(** A rejected form gives, in both actions, the flattened issues of the
    three fields and leaves the world as it was. *)
Lemma rejected_both issues :
  z.safeParse CreateInvoice (formFields formData) = z.SafeParseError issues ->
  createInvoice env prevState formData w =
    (Returned {| errors := Some (z.fieldErrors issues);
                 message := Some "MISSING FIELDS. FAILED TO CREATE INVOICE." |}, w) /\
  updateInvoice env id prevState formData w =
    (Returned {| errors := Some (z.fieldErrors issues);
                 message := Some "MISSING FIELDS. FAILED TO UPDATE INVOICE." |}, w).
Proof.
  intros H. split.
  - apply createInvoice_invalid, H.
  - apply updateInvoice_invalid. rewrite UpdateInvoice_shape. exact H.
Qed.

(** The entry of a field in the flattened errors of a form. *)
Lemma fieldErrors_of_form issues k :
  z.safeParse CreateInvoice (formFields formData) = z.SafeParseError issues ->
  z.fieldErrors issues !! k =
  match
    z.messagesAt k
      (snd (z.parse customerIdSchema ["customerId"] (FormData_get formData "customerId")))
    ++ z.messagesAt k
      (snd (z.parse amountSchema ["amount"] (FormData_get formData "amount")))
    ++ z.messagesAt k
      (snd (z.parse statusSchema ["status"] (FormData_get formData "status")))
  with
  | [] => None
  | ms => Some ms
  end.
Proof.
  intros H. apply safeParse_error_inv in H. subst issues.
  rewrite fieldErrors_lookup, !messagesAt_app. reflexivity.
Qed.

(** A form one of whose fields is not [OK] is rejected. *)
Lemma rejected_when :
  (forall v, fst (z.parse customerIdSchema ["customerId"]
                    (FormData_get formData "customerId")) <> z.OK v) \/
  (forall v, fst (z.parse amountSchema ["amount"]
                    (FormData_get formData "amount")) <> z.OK v) \/
  (forall v, fst (z.parse statusSchema ["status"]
                    (FormData_get formData "status")) <> z.OK v) ->
  exists issues,
    z.safeParse CreateInvoice (formFields formData) = z.SafeParseError issues.
Proof.
  intros H. rewrite safeParse_formFields. cbv zeta.
  destruct (z.parse customerIdSchema _ _) as [[c| |] ic],
           (z.parse amountSchema _ _) as [[a| |] ia],
           (z.parse statusSchema _ _) as [[s| |] i_s];
    cbn [fst snd] in *; eauto.
  destruct H as [H | [H | H]]; [destruct (H c) | destruct (H a) | destruct (H s)];
    reflexivity.
Qed.

End Rejections.

(** C2, as the code has it.  An amount that coerces to NaN or to a number
    [<= 0] makes both actions return a field error for [amount] and send
    nothing to the store.  The message is the schema's own only for a
    number [<= 0]; an amount that is not a number gets the library's
    wording of a type error.  The amounts 0 and -5 are rejected, 0.01 is
    accepted. *)
Theorem amount_rule env prevState id formData w :
  let n := ToNumber (FormData_get formData "amount") in
  Number.isNaN n = true \/ Number.leb n (Number.of_Z 0) = true ->
  (exists errs,
     createInvoice env prevState formData w =
       (Returned {| errors := Some errs;
                    message := Some "MISSING FIELDS. FAILED TO CREATE INVOICE." |}, w) /\
     updateInvoice env id prevState formData w =
       (Returned {| errors := Some errs;
                    message := Some "MISSING FIELDS. FAILED TO UPDATE INVOICE." |}, w) /\
     errs !! "amount" =
       Some [ if Number.isNaN n then "Expected number, received nan"
              else "PLEASE ENTER AN AMOUNT GREATER THAN $0." ]) /\
  Number.leb (ToNumber (VString "0")) (Number.of_Z 0) = true /\
  Number.leb (ToNumber (VString "-5")) (Number.of_Z 0) = true /\
  z.parse amountSchema ["amount"] (VString "0.01") =
    (z.OK (VNumber (StringToNumber "0.01")), []).
Proof.
  intros n Hn. split; [|repeat split; reflexivity].
  assert (Hissue :
    z.parse amountSchema ["amount"] (FormData_get formData "amount") =
    if Number.isNaN n
    then (z.INVALID,
          [ {| z.issue_code := z.invalid_type "number" "nan";
               z.issue_path := ["amount"];
               z.issue_message := "Expected number, received nan" |} ])
    else (z.DIRTY (VNumber n),
          [ {| z.issue_code := z.too_small 0 false;
               z.issue_path := ["amount"];
               z.issue_message := "PLEASE ENTER AN AMOUNT GREATER THAN $0." |} ])).
  { rewrite parse_amount. cbv zeta. fold n.
    destruct (Number.isNaN n); [reflexivity|].
    destruct Hn as [Hn|Hn]; [discriminate|]. rewrite Hn. reflexivity. }
  destruct (rejected_when formData) as [issues Hrej].
  { right; left. intros v. rewrite Hissue. destruct (Number.isNaN n); discriminate. }
  exists (z.fieldErrors issues).
  destruct (rejected_both env prevState id formData w issues Hrej) as [Hc Hu].
  split; [exact Hc|]. split; [exact Hu|].
  rewrite (fieldErrors_of_form formData issues _ Hrej).
  rewrite Hissue, parse_customerId, parse_status.
  destruct (FormData_get formData "customerId");
    destruct (FormData_get formData "status");
    try destruct (bool_decide _);
    destruct (Number.isNaN n); reflexivity.
Qed.

Lemma amount_rule_witness :
  exists errs,
    createInvoice Example.env Example.noState
      (Example.form Example.delba "-5" "paid") Example.world =
      (Returned {| errors := Some errs;
                   message := Some "MISSING FIELDS. FAILED TO CREATE INVOICE." |},
       Example.world) /\
    updateInvoice Example.env "X" Example.noState
      (Example.form Example.delba "-5" "paid") Example.world =
      (Returned {| errors := Some errs;
                   message := Some "MISSING FIELDS. FAILED TO UPDATE INVOICE." |},
       Example.world) /\
    errs !! "amount" = Some ["PLEASE ENTER AN AMOUNT GREATER THAN $0."].
Proof.
  apply (amount_rule Example.env Example.noState "X"
           (Example.form Example.delba "-5" "paid") Example.world).
  right. reflexivity.
Defined.

(** C2 as stated fails: the amount "abc" does not coerce to a number, and
    the error returned for [amount] is not the schema's message. *)
Lemma amount_not_a_number_message :
  let formData := Example.form Example.delba "abc" "paid" in
  Number.isNaN (ToNumber (FormData_get formData "amount")) = true /\
  exists errs,
    createInvoice Example.env Example.noState formData Example.world =
      (Returned {| errors := Some errs;
                   message := Some "MISSING FIELDS. FAILED TO CREATE INVOICE." |},
       Example.world) /\
    errs !! "amount" = Some ["Expected number, received nan"] /\
    errs !! "amount" <> Some ["PLEASE ENTER AN AMOUNT GREATER THAN $0."].
Proof.
  cbv zeta. split; [reflexivity|].
  eexists. split; [reflexivity|]. split; [reflexivity|].
  vm_compute. discriminate.
Qed.

(** C3, as the code has it.  A form without a [customerId] entry, or whose
    [customerId] is not a string, makes both actions return the field error
    of [customerId] and send nothing to the store.  The rule asks for a
    string and nothing more: every string, the empty one included, is
    accepted as a customer. *)
Theorem customerId_rule env prevState id formData w :
  (forall s, FormData_get formData "customerId" <> VString s) ->
  (exists errs,
     createInvoice env prevState formData w =
       (Returned {| errors := Some errs;
                    message := Some "MISSING FIELDS. FAILED TO CREATE INVOICE." |}, w) /\
     updateInvoice env id prevState formData w =
       (Returned {| errors := Some errs;
                    message := Some "MISSING FIELDS. FAILED TO UPDATE INVOICE." |}, w) /\
     errs !! "customerId" = Some ["PLEASE SELECT A CUSTOMER."]) /\
  (forall s, z.parse customerIdSchema ["customerId"] (VString s) = (z.OK (VString s), [])).
Proof.
  intros Hns. split; [|intros s; reflexivity].
  assert (Hissue :
    z.parse customerIdSchema ["customerId"] (FormData_get formData "customerId") =
    (z.INVALID,
     [ {| z.issue_code :=
            z.invalid_type "string"
              (z.getParsedType (FormData_get formData "customerId"));
          z.issue_path := ["customerId"];
          z.issue_message := "PLEASE SELECT A CUSTOMER." |} ])).
  { rewrite parse_customerId.
    destruct (FormData_get_cases formData "customerId") as [H | [[s H] | [f H]]];
      [rewrite H; reflexivity | destruct (Hns s H) | rewrite H; reflexivity]. }
  destruct (rejected_when formData) as [issues Hrej].
  { left. intros v. rewrite Hissue. discriminate. }
  exists (z.fieldErrors issues).
  destruct (rejected_both env prevState id formData w issues Hrej) as [Hc Hu].
  split; [exact Hc|]. split; [exact Hu|].
  rewrite (fieldErrors_of_form formData issues _ Hrej).
  rewrite Hissue, parse_amount, parse_status. cbv zeta.
  destruct (Number.isNaN _); try destruct (Number.leb _ _);
    destruct (FormData_get formData "status");
    try destruct (bool_decide _); reflexivity.
Qed.

Lemma customerId_rule_witness :
  exists errs,
    createInvoice Example.env Example.noState
      [("amount", EntryString "250"); ("status", EntryString "paid")]
      Example.world =
      (Returned {| errors := Some errs;
                   message := Some "MISSING FIELDS. FAILED TO CREATE INVOICE." |},
       Example.world) /\
    updateInvoice Example.env "X" Example.noState
      [("amount", EntryString "250"); ("status", EntryString "paid")]
      Example.world =
      (Returned {| errors := Some errs;
                   message := Some "MISSING FIELDS. FAILED TO UPDATE INVOICE." |},
       Example.world) /\
    errs !! "customerId" = Some ["PLEASE SELECT A CUSTOMER."].
Proof.
  apply (customerId_rule Example.env Example.noState "X"
           [("amount", EntryString "250"); ("status", EntryString "paid")]
           Example.world).
  intros s. discriminate.
Defined.

(** C3 as stated fails: with an empty [customerId] the form is valid, no
    error is returned and the INSERT is sent with the empty customer. *)
Lemma empty_customerId_accepted :
  createInvoice Example.env Example.noState
    (Example.form EmptyString "250" "paid") Example.world =
  (Thrown (RedirectError "/dashboard/invoices"),
   {| invoices :=
        invoices Example.world ++
        [ {| row_id := "1"; row_customer_id := VString EmptyString;
             row_amount := VNumber (Number.of_Z 25000);
             row_status := VString "paid";
             row_date := VString "2023-11-14" |} ];
      issued :=
        [ INSERT_INTO_invoices (VString EmptyString) (VNumber (Number.of_Z 25000))
            (VString "paid") (VString "2023-11-14") ];
      revalidated := ["/dashboard/invoices"] |}).
Proof. reflexivity. Qed.

(** C4, as the code has it.  A status other than the strings [pending]
    and [paid] makes both actions return a field error for [status] and
    send nothing to the store.  The message is the schema's own when the
    status is absent or not a string; another string gets the library's
    wording of an enum error, which quotes it. *)
Theorem status_rule env prevState id formData w :
  FormData_get formData "status" <> VString "pending" ->
  FormData_get formData "status" <> VString "paid" ->
  exists errs,
    createInvoice env prevState formData w =
      (Returned {| errors := Some errs;
                   message := Some "MISSING FIELDS. FAILED TO CREATE INVOICE." |}, w) /\
    updateInvoice env id prevState formData w =
      (Returned {| errors := Some errs;
                   message := Some "MISSING FIELDS. FAILED TO UPDATE INVOICE." |}, w) /\
    errs !! "status" =
      Some [ match FormData_get formData "status" with
             | VString s =>
                 "Invalid enum value. Expected 'pending' | 'paid', received '"
                   +:+ s +:+ "'"
             | _ => "PLEASE SELECT AN INVOICE STATUS."
             end ].
Proof.
  intros Hpending Hpaid.
  assert (Hissue : exists c,
    z.parse statusSchema ["status"] (FormData_get formData "status") =
    (z.INVALID,
     [ {| z.issue_code := c;
          z.issue_path := ["status"];
          z.issue_message :=
            match FormData_get formData "status" with
            | VString s =>
                "Invalid enum value. Expected 'pending' | 'paid', received '"
                  +:+ s +:+ "'"
            | _ => "PLEASE SELECT AN INVOICE STATUS."
            end |} ])).
  { rewrite parse_status.
    destruct (FormData_get_cases formData "status") as [H | [[s H] | [f H]]];
      rewrite H in *; try (eexists; reflexivity).
    rewrite bool_decide_false; [eexists; reflexivity|].
    intros [-> | ->]; congruence. }
  destruct Hissue as [c Hissue].
  destruct (rejected_when formData) as [issues Hrej].
  { right; right. intros v. rewrite Hissue. discriminate. }
  exists (z.fieldErrors issues).
  destruct (rejected_both env prevState id formData w issues Hrej) as [Hc Hu].
  split; [exact Hc|]. split; [exact Hu|].
  rewrite (fieldErrors_of_form formData issues _ Hrej).
  rewrite Hissue, parse_amount, parse_customerId. cbv zeta.
  destruct (Number.isNaN _); try destruct (Number.leb _ _);
    destruct (FormData_get formData "customerId"); reflexivity.
Qed.

Lemma status_rule_witness :
  exists errs,
    createInvoice Example.env Example.noState
      [("customerId", EntryString Example.delba); ("amount", EntryString "250")]
      Example.world =
      (Returned {| errors := Some errs;
                   message := Some "MISSING FIELDS. FAILED TO CREATE INVOICE." |},
       Example.world) /\
    updateInvoice Example.env "X" Example.noState
      [("customerId", EntryString Example.delba); ("amount", EntryString "250")]
      Example.world =
      (Returned {| errors := Some errs;
                   message := Some "MISSING FIELDS. FAILED TO UPDATE INVOICE." |},
       Example.world) /\
    errs !! "status" = Some ["PLEASE SELECT AN INVOICE STATUS."].
Proof.
  apply (status_rule Example.env Example.noState "X"
           [("customerId", EntryString Example.delba); ("amount", EntryString "250")]
           Example.world); discriminate.
Defined.

(** C4 as stated fails: the status "draft" is rejected, but not with the
    schema's message. *)
Lemma unknown_status_message :
  let formData := Example.form Example.delba "250" "draft" in
  exists errs,
    createInvoice Example.env Example.noState formData Example.world =
      (Returned {| errors := Some errs;
                   message := Some "MISSING FIELDS. FAILED TO CREATE INVOICE." |},
       Example.world) /\
    errs !! "status" =
      Some ["Invalid enum value. Expected 'pending' | 'paid', received 'draft'"] /\
    errs !! "status" <> Some ["PLEASE SELECT AN INVOICE STATUS."].
Proof.
  cbv zeta. eexists. split; [reflexivity|]. split; [reflexivity|].
  vm_compute. discriminate.
Qed.

(** ** Accepted forms *)

(** C5, as the code has it.  When a form passes validation, its amount is
    a number that is neither NaN nor [<= 0], and the amount both actions
    send to the store is the product of that number and 100 as numbers
    multiply: nothing rounds it, and it is an integer only when that
    product happens to be one, as for 250, which gives 25000. *)
Theorem amount_sent_is_product env prevState id formData w data :
  z.safeParse CreateInvoice (formFields formData) = z.SafeParseSuccess data ->
  (exists c n s,
     data = validatedData c n s /\
     Number.isNaN n = false /\ Number.leb n (Number.of_Z 0) = false /\
     issued (snd (createInvoice env prevState formData w)) =
       issued w ++
       [ INSERT_INTO_invoices (VString c)
           (VNumber (Number.mul n (Number.of_Z 100))) (VString s)
           (today (clock env)) ] /\
     issued (snd (updateInvoice env id prevState formData w)) =
       issued w ++
       [ UPDATE_invoices (VString c)
           (VNumber (Number.mul n (Number.of_Z 100))) (VString s) id ]) /\
  Number.to_Z (Number.of_Z 100) = Some 100 /\
  Number.to_Z (Number.mul (StringToNumber "250") (Number.of_Z 100)) = Some 25000.
Proof.
  intros H. split; [|split; reflexivity].
  apply safeParse_success_inv in H as (c & n & s & Hv & ->).
  exists c, n, s. split; [reflexivity|].
  pose proof Hv as (_ & _ & Hnan & Hle & _).
  split; [exact Hnan|]. split; [exact Hle|].
  rewrite (createInvoice_valid env prevState formData w c n s Hv).
  rewrite (updateInvoice_valid env prevState formData w id c n s Hv).
  cbv zeta. split.
  - destruct (store env _ (invoices w)); reflexivity.
  - destruct (store env _ (invoices w)); reflexivity.
Qed.

Lemma amount_sent_is_product_witness :
  exists c n s,
    validatedData Example.delba (StringToNumber "250") "paid" = validatedData c n s /\
    Number.isNaN n = false /\ Number.leb n (Number.of_Z 0) = false /\
    issued (snd (createInvoice Example.env Example.noState
                   (Example.form Example.delba "250" "paid") Example.world)) =
      issued Example.world ++
      [ INSERT_INTO_invoices (VString c)
          (VNumber (Number.mul n (Number.of_Z 100))) (VString s)
          (today Example.now) ] /\
    issued (snd (updateInvoice Example.env "X" Example.noState
                   (Example.form Example.delba "250" "paid") Example.world)) =
      issued Example.world ++
      [ UPDATE_invoices (VString c)
          (VNumber (Number.mul n (Number.of_Z 100))) (VString s) "X" ].
Proof.
  apply (amount_sent_is_product Example.env Example.noState "X"
           (Example.form Example.delba "250" "paid") Example.world
           (validatedData Example.delba (StringToNumber "250") "paid")).
  reflexivity.
Defined.

(** C5 as stated fails: the amount "10.005" passes validation and the
    amount sent is 8800491068719105 / 2^43, that is 1000.5 + 2^-43
    (printed 1000.5000000000001), which is not an integer. *)
Lemma fractional_cents_sent :
  let formData := Example.form Example.delba "10.005" "paid" in
  z.safeParse CreateInvoice (formFields formData) =
    z.SafeParseSuccess (validatedData Example.delba (StringToNumber "10.005") "paid") /\
  issued (snd (createInvoice Example.env Example.noState formData Example.world)) =
    [ INSERT_INTO_invoices (VString Example.delba)
        (VNumber (S754_finite false 8800491068719105 (-43)))
        (VString "paid") (VString "2023-11-14") ] /\
  Number.isInteger (S754_finite false 8800491068719105 (-43)) = false /\
  Number.to_Z (S754_finite false 8800491068719105 (-43)) = None /\
  2 * 8800491068719105 = 2001 * 2 ^ 43 + 2.
Proof. cbv zeta. repeat split; reflexivity. Qed.

(** ** Updating an invoice *)

(** C6. An update that succeeds, ending by the redirect, was made with a
    valid form and sent exactly one statement: the UPDATE of the row of
    the given identifier, carrying the customer, the amount times 100 and
    the status.  On a store that implements SQL the rows are then the old
    ones with these three columns replaced where the identifier matches:
    every row keeps its identifier and its date. *)
Theorem updateInvoice_keeps_date env id prevState formData w w' :
  updateInvoice env id prevState formData w =
    (Thrown (RedirectError "/dashboard/invoices"), w') ->
  implementsSQL (store env) ->
  exists c n s,
    validFields formData c n s /\
    issued w' =
      issued w ++
      [ UPDATE_invoices (VString c)
          (VNumber (Number.mul n (Number.of_Z 100))) (VString s) id ] /\
    invoices w' =
      map (fun r =>
             if String.eqb (row_id r) id
             then {| row_id := row_id r; row_customer_id := VString c;
                     row_amount := VNumber (Number.mul n (Number.of_Z 100));
                     row_status := VString s; row_date := row_date r |}
             else r) (invoices w) /\
    map row_date (invoices w') = map row_date (invoices w) /\
    map row_id (invoices w') = map row_id (invoices w).
Proof.
  intros Hrun Hsql.
  destruct (safeParse_cases formData) as [(c & n & s & Hv) | [issues Hrej]].
  2:{ rewrite (updateInvoice_invalid env prevState formData w id issues) in Hrun
        by (rewrite UpdateInvoice_shape; exact Hrej). discriminate. }
  rewrite (updateInvoice_valid env prevState formData w id c n s Hv) in Hrun.
  cbv zeta in Hrun.
  destruct (store env _ (invoices w)) as [e|tbl] eqn:Hstore; [discriminate|].
  injection Hrun as <-.
  destruct (Hsql _ _ _ Hstore) as [newId ->].
  exists c, n, s. split; [exact Hv|]. split; [reflexivity|].
  cbn [applied invoices runStatement]. split; [reflexivity|].
  rewrite !map_map. split; apply map_ext; intros r;
    destruct (String.eqb (row_id r) id); reflexivity.
Qed.

Lemma updateInvoice_keeps_date_witness :
  let w' := snd (updateInvoice Example.env "X" Example.noState
                   (Example.form "C2" "10" "pending") Example.world) in
  exists c n s,
    validFields (Example.form "C2" "10" "pending") c n s /\
    issued w' =
      issued Example.world ++
      [ UPDATE_invoices (VString c)
          (VNumber (Number.mul n (Number.of_Z 100))) (VString s) "X" ] /\
    invoices w' =
      map (fun r =>
             if String.eqb (row_id r) "X"
             then {| row_id := row_id r; row_customer_id := VString c;
                     row_amount := VNumber (Number.mul n (Number.of_Z 100));
                     row_status := VString s; row_date := row_date r |}
             else r) (invoices Example.world) /\
    map row_date (invoices w') = map row_date (invoices Example.world) /\
    map row_id (invoices w') = map row_id (invoices Example.world).
Proof.
  cbv zeta.
  apply (updateInvoice_keeps_date Example.env "X" Example.noState
           (Example.form "C2" "10" "pending") Example.world).
  - reflexivity.
  - intros st tbl tbl' [= <-]. eexists. reflexivity.
Defined.

(** The update scenario: customer, amount and status of invoice [X]
    change, its date does not. *)
Example update_scenario :
  invoices (snd (updateInvoice Example.env "X" Example.noState
                   (Example.form "C2" "10" "pending") Example.world)) =
  [ {| row_id := "X"; row_customer_id := VString "C2";
       row_amount := VNumber (Number.of_Z 1000);
       row_status := VString "pending";
       row_date := VString "2023-06-17" |} ].
Proof. reflexivity. Qed.

(** ** Store failures *)

(** C7. When the store raises on the statement of a create, the action
    returns the create database error message with no [errors] field, and
    when it raises on the statement of an update, the action returns the
    update one; each holds whatever the store does with the other
    statement and whatever it raised.  Nothing is thrown, the cache is
    not invalidated and no redirect happens.  The statement was sent,
    once. *)
Theorem store_failure_is_reported env id prevState formData w c n s :
  validFields formData c n s ->
  (forall e,
     store env
       (INSERT_INTO_invoices (VString c) (VNumber (Number.mul n (Number.of_Z 100)))
          (VString s) (today (clock env))) (invoices w) = inl e ->
     createInvoice env prevState formData w =
       (Returned {| errors := None;
                    message := Some "DATABASE ERROR: FAILED TO CREATE INVOICE." |},
        {| invoices := invoices w;
           issued := issued w ++
             [ INSERT_INTO_invoices (VString c)
                 (VNumber (Number.mul n (Number.of_Z 100))) (VString s)
                 (today (clock env)) ];
           revalidated := revalidated w |})) /\
  (forall e,
     store env
       (UPDATE_invoices (VString c) (VNumber (Number.mul n (Number.of_Z 100)))
          (VString s) id) (invoices w) = inl e ->
     updateInvoice env id prevState formData w =
       (Returned {| errors := None;
                    message := Some "DATABASE ERROR: FAILED TO UPDATE INVOICE." |},
        {| invoices := invoices w;
           issued := issued w ++
             [ UPDATE_invoices (VString c)
                 (VNumber (Number.mul n (Number.of_Z 100))) (VString s) id ];
           revalidated := revalidated w |})).
Proof.
  intros Hv. split; intros e He.
  - rewrite (createInvoice_valid env prevState formData w c n s Hv).
    cbv zeta. rewrite He. reflexivity.
  - rewrite (updateInvoice_valid env prevState formData w id c n s Hv).
    cbv zeta. rewrite He. reflexivity.
Qed.

Lemma store_failure_is_reported_witness :
  createInvoice Example.envInsertRefused Example.noState
    (Example.form Example.delba "250" "paid") Example.world =
    (Returned {| errors := None;
                 message := Some "DATABASE ERROR: FAILED TO CREATE INVOICE." |},
     {| invoices := invoices Example.world;
        issued :=
          [ INSERT_INTO_invoices (VString Example.delba)
              (VNumber (Number.of_Z 25000)) (VString "paid")
              (VString "2023-11-14") ];
        revalidated := [] |}) /\
  updateInvoice Example.envUpdateRefused "X" Example.noState
    (Example.form Example.delba "250" "paid") Example.world =
    (Returned {| errors := None;
                 message := Some "DATABASE ERROR: FAILED TO UPDATE INVOICE." |},
     {| invoices := invoices Example.world;
        issued :=
          [ UPDATE_invoices (VString Example.delba)
              (VNumber (Number.of_Z 25000)) (VString "paid") "X" ];
        revalidated := [] |}).
Proof.
  assert (Hv : validFields (Example.form Example.delba "250" "paid")
                 Example.delba (Number.of_Z 250) "paid").
  { unfold validFields. repeat split; try reflexivity. right; reflexivity. }
  split.
  - apply (proj1 (store_failure_is_reported Example.envInsertRefused "X"
                    Example.noState (Example.form Example.delba "250" "paid")
                    Example.world Example.delba (Number.of_Z 250) "paid" Hv)
                 (Error "insert refused")).
    reflexivity.
  - apply (proj2 (store_failure_is_reported Example.envUpdateRefused "X"
                    Example.noState (Example.form Example.delba "250" "paid")
                    Example.world Example.delba (Number.of_Z 250) "paid" Hv)
                 (Error "update refused")).
    reflexivity.
Defined.

(** A store that refuses the INSERT and applies the UPDATE: the create is
    reported as failed, the update of the same form goes through. *)
Example insert_refused_update_applied :
  fst (createInvoice Example.envInsertRefused Example.noState
         (Example.form Example.delba "250" "paid") Example.world) =
    Returned {| errors := None;
                message := Some "DATABASE ERROR: FAILED TO CREATE INVOICE." |} /\
  fst (updateInvoice Example.envInsertRefused "X" Example.noState
         (Example.form Example.delba "250" "paid") Example.world) =
    Thrown (RedirectError "/dashboard/invoices").
Proof. split; reflexivity. Qed.

(** ** Signing in *)

(** C8. The answer of [authenticate] follows what the sign-in delegate
    did: an authentication error of type CredentialsSignin gives the
    invalid-credentials message, any other authentication error the
    something-went-wrong message, any other error is thrown again as it
    came, and a normal return gives no value.  The world is untouched. *)
Theorem authenticate_classifies env prevState formData w :
  authenticate env prevState formData w =
  match signIn env "credentials" formData with
  | None => (Returned None, w)
  | Some (AuthError type) =>
      if String.eqb type "CredentialsSignin"
      then (Returned (Some "INVALID CREDENTIALS."), w)
      else (Returned (Some "SOMETHING WENT WRONG."), w)
  | Some e => (Thrown e, w)
  end.
Proof.
  unfold authenticate, awaitSignIn, mbind, M_bind, mret, M_ret, try_catch, throw.
  destruct (signIn env "credentials" formData) as [[type | url | msg]|];
    try reflexivity.
  destruct (String.eqb type "CredentialsSignin"); reflexivity.
Qed.

(** ** Deleting an invoice *)

(** C9. [deleteInvoice] sends one DELETE for the identifier.  When the
    store accepts it, the invoices list is invalidated and the deleted
    message is returned; when the store raises, the database error message
    is returned.  It never throws and never redirects, so deleting the
    same identifier again gives one of the same two results. *)
Theorem deleteInvoice_total env id w :
  let deleted := {| errors := None; message := Some "DELETED INVOICE." |} in
  let failed :=
    {| errors := None;
       message := Some "DATABASE ERROR: FAILED TO DELETE INVOICE." |} in
  deleteInvoice env id w =
    match store env (DELETE_FROM_invoices id) (invoices w) with
    | inr tbl =>
        (Returned deleted,
         {| invoices := tbl;
            issued := issued w ++ [DELETE_FROM_invoices id];
            revalidated := revalidated w ++ ["/dashboard/invoices"] |})
    | inl _ =>
        (Returned failed,
         {| invoices := invoices w;
            issued := issued w ++ [DELETE_FROM_invoices id];
            revalidated := revalidated w |})
    end /\
  (exists r1 w1 r2 w2,
     deleteInvoice env id w = (Returned r1, w1) /\
     deleteInvoice env id w1 = (Returned r2, w2) /\
     (r1 = deleted \/ r1 = failed) /\ (r2 = deleted \/ r2 = failed) /\
     issued w2 = issued w ++ [DELETE_FROM_invoices id; DELETE_FROM_invoices id]).
Proof.
  intros deleted failed. split; [apply deleteInvoice_run|].
  rewrite deleteInvoice_run. cbv zeta.
  destruct (store env _ (invoices w)) as [e1|tbl1] eqn:H1.
  - exists failed, (sent (DELETE_FROM_invoices id) w).
    rewrite deleteInvoice_run. cbv zeta. cbn [invoices sent]. rewrite H1.
    exists failed, (sent (DELETE_FROM_invoices id) (sent (DELETE_FROM_invoices id) w)).
    split; [reflexivity|]. split; [reflexivity|].
    split; [auto|]. split; [auto|].
    unfold sent; cbn [issued]. rewrite <- app_assoc. reflexivity.
  - exists deleted, (applied (DELETE_FROM_invoices id) tbl1 w).
    rewrite deleteInvoice_run. cbv zeta. cbn [invoices applied].
    destruct (store env _ tbl1) as [e2|tbl2].
    + exists failed, (sent (DELETE_FROM_invoices id)
                        (applied (DELETE_FROM_invoices id) tbl1 w)).
      split; [reflexivity|]. split; [reflexivity|].
      split; [auto|]. split; [auto|].
      unfold sent, applied; cbn [issued]. rewrite <- app_assoc. reflexivity.
    + exists deleted, (applied (DELETE_FROM_invoices id) tbl2
                         (applied (DELETE_FROM_invoices id) tbl1 w)).
      split; [reflexivity|]. split; [reflexivity|].
      split; [auto|]. split; [auto|].
      unfold applied; cbn [issued]. rewrite <- app_assoc. reflexivity.
Qed.

(** ** One schema for both forms *)

(** C10. The create and update variants are the same schema, the form
    schema without [id] and [date]: they give the same result on every
    input, so the two actions reject the same forms, with the same field
    errors. *)
Theorem create_update_same_schema :
  CreateInvoice = z.omit ["id"; "date"] FormSchema /\
  UpdateInvoice = z.omit ["id"; "date"] FormSchema /\
  fst <$> CreateInvoice = ["customerId"; "amount"; "status"] /\
  (forall data : Object,
     z.safeParse CreateInvoice data = z.safeParse UpdateInvoice data) /\
  (forall env id prevState formData w,
     (exists issues,
        z.safeParse CreateInvoice (formFields formData) = z.SafeParseError issues /\
        z.safeParse UpdateInvoice (formFields formData) = z.SafeParseError issues /\
        createInvoice env prevState formData w =
          (Returned {| errors := Some (z.fieldErrors issues);
                       message := Some "MISSING FIELDS. FAILED TO CREATE INVOICE." |}, w) /\
        updateInvoice env id prevState formData w =
          (Returned {| errors := Some (z.fieldErrors issues);
                       message := Some "MISSING FIELDS. FAILED TO UPDATE INVOICE." |}, w))
     \/
     (exists data,
        z.safeParse CreateInvoice (formFields formData) = z.SafeParseSuccess data /\
        z.safeParse UpdateInvoice (formFields formData) = z.SafeParseSuccess data)).
Proof.
  split; [reflexivity|]. split; [reflexivity|]. split; [reflexivity|].
  split; [intros data; reflexivity|].
  intros env id prevState formData w.
  destruct (z.safeParse CreateInvoice (formFields formData)) as [data|issues] eqn:H.
  - right. exists data. split; [reflexivity|].
    rewrite UpdateInvoice_shape. exact H.
  - left. exists issues. split; [reflexivity|].
    split; [rewrite UpdateInvoice_shape; exact H|].
    apply rejected_both, H.
Qed.

(** ** The outcomes of the two form actions *)

Lemma snoc_neq {A} (l : list A) (x : A) : l ++ [x] <> l.
Proof.
  intros H. apply (f_equal length) in H. rewrite length_app in H. cbn in H. lia.
Qed.

(** X1. [createInvoice] and [updateInvoice] each end in one of three
    ways: a returned validation report with the world untouched; a
    returned database error after one statement was sent, with no cache
    invalidation; or the thrown redirect to the invoices list after one
    statement was applied and the list invalidated once.  Nothing else
    is ever thrown, and a returned state always has a message. *)
Theorem form_action_outcomes env id prevState formData w :
  ((exists errs,
      createInvoice env prevState formData w =
        (Returned {| errors := Some errs;
                     message := Some "MISSING FIELDS. FAILED TO CREATE INVOICE." |}, w))
   \/ (exists st,
      createInvoice env prevState formData w =
        (Returned {| errors := None;
                     message := Some "DATABASE ERROR: FAILED TO CREATE INVOICE." |},
         {| invoices := invoices w; issued := issued w ++ [st];
            revalidated := revalidated w |}))
   \/ (exists st tbl,
      createInvoice env prevState formData w =
        (Thrown (RedirectError "/dashboard/invoices"),
         {| invoices := tbl; issued := issued w ++ [st];
            revalidated := revalidated w ++ ["/dashboard/invoices"] |}))) /\
  ((exists errs,
      updateInvoice env id prevState formData w =
        (Returned {| errors := Some errs;
                     message := Some "MISSING FIELDS. FAILED TO UPDATE INVOICE." |}, w))
   \/ (exists st,
      updateInvoice env id prevState formData w =
        (Returned {| errors := None;
                     message := Some "DATABASE ERROR: FAILED TO UPDATE INVOICE." |},
         {| invoices := invoices w; issued := issued w ++ [st];
            revalidated := revalidated w |}))
   \/ (exists st tbl,
      updateInvoice env id prevState formData w =
        (Thrown (RedirectError "/dashboard/invoices"),
         {| invoices := tbl; issued := issued w ++ [st];
            revalidated := revalidated w ++ ["/dashboard/invoices"] |}))).
Proof.
  destruct (safeParse_cases formData) as [(c & n & s & Hv) | [issues Hrej]].
  - rewrite (createInvoice_valid env prevState formData w c n s Hv).
    rewrite (updateInvoice_valid env prevState formData w id c n s Hv).
    cbv zeta. split.
    + destruct (store env _ (invoices w)) as [e|tbl]; right; [left|right]; eauto.
    + destruct (store env _ (invoices w)) as [e|tbl]; right; [left|right]; eauto.
  - destruct (rejected_both env prevState id formData w issues Hrej) as [Hc Hu].
    split; left; eauto.
Qed.

(** X2. The store is reached exactly by valid forms: [createInvoice] and
    [updateInvoice] send a statement if and only if the customer is a
    string, the amount coerces to a number that is neither NaN nor
    [<= 0], and the status is [pending] or [paid]. *)
Theorem statement_sent_iff_valid env id prevState formData w :
  ((exists c n s, validFields formData c n s) <->
   issued (snd (createInvoice env prevState formData w)) <> issued w) /\
  ((exists c n s, validFields formData c n s) <->
   issued (snd (updateInvoice env id prevState formData w)) <> issued w).
Proof.
  destruct (safeParse_cases formData) as [(c & n & s & Hv) | [issues Hrej]].
  - rewrite (createInvoice_valid env prevState formData w c n s Hv).
    rewrite (updateInvoice_valid env prevState formData w id c n s Hv).
    cbv zeta. split; (split; [intros _ | eauto]).
    + destruct (store env _ (invoices w)); apply snoc_neq.
    + destruct (store env _ (invoices w)); apply snoc_neq.
  - destruct (rejected_both env prevState id formData w issues Hrej) as [Hc Hu].
    rewrite Hc, Hu. cbn [snd].
    split; (split; [|congruence]); intros (c & n & s & Hv);
      rewrite (safeParse_valid _ _ _ _ Hv) in Hrej; discriminate.
Qed.

(** ** The shape of a validation report *)

Section Report.

Import z.

Lemma messagesAt_single k c f m :
  messagesAt k [ {| issue_code := c; issue_path := [f]; issue_message := m |} ] =
  if decide (f = k) then [m] else [].
Proof.
  unfold messagesAt. rewrite filter_cons. cbn [issue_path head].
  destruct (decide (f = k)) as [->|Hne].
  - rewrite decide_True by reflexivity. reflexivity.
  - rewrite decide_False by congruence. reflexivity.
Qed.

Lemma customerId_contributes v :
  exists l, contributes "customerId" (parse customerIdSchema ["customerId"] v) l
              (exists s, v = VString s).
Proof.
  rewrite parse_customerId. unfold contributes.
  assert (Hno : forall c m,
            (forall s, v <> VString s) ->
            exists l,
              (forall k,
                 messagesAt k
                   [ {| issue_code := c; issue_path := ["customerId"];
                        issue_message := m |} ] =
                 if decide ("customerId" = k) then l else []) /\
              (length l <= 1)%nat /\
              (l = [] <-> exists s, v = VString s) /\
              (l = [] -> exists v', INVALID = OK v')).
  { intros c m Hns. exists [m]. cbn [length].
    split; [intros k; apply messagesAt_single|]. split; [lia|].
    split; [|discriminate]. split; [discriminate|].
    intros [s Hs]. destruct (Hns s Hs). }
  destruct v as [| |s|n|f]; cbn [fst snd];
    try (apply Hno; discriminate).
  exists []. cbn [length].
  split; [intros k; destruct (decide _); reflexivity|]. split; [lia|].
  split; [|eauto]. split; eauto.
Qed.

Lemma amount_contributes v :
  exists l, contributes "amount" (parse amountSchema ["amount"] v) l
              (Number.isNaN (ToNumber v) = false /\
               Number.leb (ToNumber v) (Number.of_Z 0) = false).
Proof.
  rewrite parse_amount. cbv zeta. unfold contributes.
  destruct (Number.isNaN (ToNumber v)).
  - eexists [_]. cbn [fst snd length].
    split; [intros k; apply messagesAt_single|]. split; [lia|].
    split; [split; [discriminate | intros [[=] _]] | discriminate].
  - destruct (Number.leb (ToNumber v) (Number.of_Z 0)).
    + eexists [_]. cbn [fst snd length].
      split; [intros k; apply messagesAt_single|]. split; [lia|].
      split; [split; [discriminate | intros [_ [=]]] | discriminate].
    + exists []. cbn [fst snd length].
      split; [intros k; destruct (decide _); reflexivity|]. split; [lia|].
      split; [tauto | eauto].
Qed.

Lemma status_contributes v :
  exists l, contributes "status" (parse statusSchema ["status"] v) l
              (v = VString "pending" \/ v = VString "paid").
Proof.
  rewrite parse_status. unfold contributes.
  destruct v as [| |s|n|f];
    try (eexists [_]; cbn [fst snd length];
         split; [intros k; apply messagesAt_single|]; split; [lia|];
         split; [split; [discriminate | intros [[=] | [=]]] | discriminate]).
  destruct (bool_decide (s = "pending" \/ s = "paid")) eqn:E.
  - apply bool_decide_eq_true in E. exists []. cbn [fst snd length].
    split; [intros k; destruct (decide _); reflexivity|]. split; [lia|].
    split; [|eauto]. split; [intros _|reflexivity].
    destruct E as [-> | ->]; auto.
  - apply bool_decide_eq_false in E. eexists [_]. cbn [fst snd length].
    split; [intros k; apply messagesAt_single|]. split; [lia|].
    split; [|discriminate]. split; [discriminate|].
    intros [[= ->] | [= ->]]; exfalso; apply E; auto.
Qed.

End Report.

(** X3. The [errors] object of a rejected form names exactly the fields
    that failed: it has an entry for [customerId], [amount] or [status]
    if and only if that field breaks its rule, every entry holds exactly
    one message, no other key ever appears, and at least one entry is
    present. *)
Theorem errors_name_failing_fields env prevState formData w errs msg w' :
  createInvoice env prevState formData w =
    (Returned {| errors := Some errs; message := msg |}, w') ->
  (errs !! "customerId" = None <->
     exists s, FormData_get formData "customerId" = VString s) /\
  (errs !! "amount" = None <->
     Number.isNaN (ToNumber (FormData_get formData "amount")) = false /\
     Number.leb (ToNumber (FormData_get formData "amount")) (Number.of_Z 0) = false) /\
  (errs !! "status" = None <->
     FormData_get formData "status" = VString "pending" \/
     FormData_get formData "status" = VString "paid") /\
  (forall k, k <> "customerId" -> k <> "amount" -> k <> "status" ->
     errs !! k = None) /\
  (forall k ms, errs !! k = Some ms -> length ms = 1%nat) /\
  (errs !! "customerId" <> None \/ errs !! "amount" <> None \/
   errs !! "status" <> None).
Proof.
  intros Hrun.
  destruct (safeParse_cases formData) as [(c & n & s & Hv) | [issues Hrej]].
  { rewrite (createInvoice_valid env prevState formData w c n s Hv) in Hrun.
    cbv zeta in Hrun. destruct (store env _ (invoices w)); discriminate. }
  rewrite (createInvoice_invalid env prevState formData w issues Hrej) in Hrun.
  injection Hrun as <- _ _.
  pose proof (fun k => fieldErrors_of_form formData issues k Hrej) as Hlk.
  destruct (customerId_contributes (FormData_get formData "customerId"))
    as (lc & Mc & Lc & Ac & Oc).
  destruct (amount_contributes (FormData_get formData "amount"))
    as (la & Ma & La & Aa & Oa).
  destruct (status_contributes (FormData_get formData "status"))
    as (ls & Ms & Ls & As & Os).
  assert (Hk : forall k,
    z.fieldErrors issues !! k =
    match (if decide ("customerId" = k) then lc else [])
          ++ (if decide ("amount" = k) then la else [])
          ++ (if decide ("status" = k) then ls else []) with
    | [] => None
    | ms => Some ms
    end).
  { intros k. rewrite Hlk, Mc, Ma, Ms. reflexivity. }
  assert (Hsome : lc <> [] \/ la <> [] \/ ls <> []).
  { destruct lc as [|mc lc']; [|left; discriminate].
    destruct la as [|ma la']; [|right; left; discriminate].
    destruct ls as [|ms ls']; [|right; right; discriminate].
    exfalso. destruct (Oc eq_refl) as [vc Ec], (Oa eq_refl) as [va Ea],
      (Os eq_refl) as [vs Es].
    rewrite safeParse_formFields in Hrej. cbv zeta in Hrej.
    rewrite Ec, Ea, Es in Hrej. discriminate. }
  clear Hlk Mc Ma Ms Oc Oa Os Hrej.
  pose proof (Hk "customerId") as Hkc. pose proof (Hk "amount") as Hka.
  pose proof (Hk "status") as Hks.
  rewrite decide_True in Hkc by reflexivity.
  rewrite !decide_False in Hkc by discriminate.
  rewrite decide_False, decide_True, decide_False in Hka
    by (reflexivity || discriminate).
  rewrite !decide_False, decide_True in Hks by (reflexivity || discriminate).
  cbn [app] in Hkc, Hka, Hks. rewrite app_nil_r in Hkc, Hka.
  rewrite Hkc, Hka, Hks. rewrite <- Ac, <- Aa, <- As.
  split; [destruct lc; split; congruence|].
  split; [destruct la; split; congruence|].
  split; [destruct ls; split; congruence|].
  split; [|split].
  - intros k H1 H2 H3. rewrite Hk, !decide_False by congruence. reflexivity.
  - intros k ms. rewrite Hk.
    destruct (decide ("customerId" = k)) as [<-|?].
    + rewrite !decide_False by discriminate. rewrite app_nil_r.
      destruct lc as [|? [|? ?]]; cbn in *; [discriminate | | lia].
      intros [= <-]. reflexivity.
    + destruct (decide ("amount" = k)) as [<-|?].
      * rewrite decide_False by discriminate. rewrite app_nil_r.
        destruct la as [|? [|? ?]]; cbn in *; [discriminate | | lia].
        intros [= <-]. reflexivity.
      * destruct (decide ("status" = k)) as [<-|?]; [|discriminate].
        destruct ls as [|? [|? ?]]; cbn in *; [discriminate | | lia].
        intros [= <-]. reflexivity.
  - destruct Hsome as [H | [H | H]]; [left | right; left | right; right];
      [destruct lc | destruct la | destruct ls]; congruence.
Qed.

Lemma errors_name_failing_fields_witness :
  let errs : gmap string (list string) :=
    {[ "amount" := ["PLEASE ENTER AN AMOUNT GREATER THAN $0."];
       "status" :=
         ["Invalid enum value. Expected 'pending' | 'paid', received 'draft'"] ]} in
  (errs !! "customerId" = None <->
     exists s, FormData_get (Example.form Example.delba "0" "draft") "customerId"
               = VString s) /\
  (forall k ms, errs !! k = Some ms -> length ms = 1%nat).
Proof.
  intros errs.
  destruct (errors_name_failing_fields Example.env Example.noState
              (Example.form Example.delba "0" "draft") Example.world errs
              (Some "MISSING FIELDS. FAILED TO CREATE INVOICE.") Example.world)
    as (Hc & _ & _ & _ & Hl & _).
  - vm_compute. reflexivity.
  - split; [exact Hc | exact Hl].
Defined.

(** ** Which entries of a form count *)

Lemma FormData_get_app formData more k :
  FormData_get (formData ++ more) k =
  match FormData_get formData k with
  | VNull => FormData_get more k
  | v => v
  end.
Proof.
  induction formData as [|[k' v] rest IH]; cbn [FormData_get app]; [reflexivity|].
  destruct (String.eqb k' k); [destruct v; reflexivity | exact IH].
Qed.

Lemma formFields_ext fd1 fd2 :
  FormData_get fd1 "customerId" = FormData_get fd2 "customerId" ->
  FormData_get fd1 "amount" = FormData_get fd2 "amount" ->
  FormData_get fd1 "status" = FormData_get fd2 "status" ->
  formFields fd1 = formFields fd2.
Proof. unfold formFields. intros -> -> ->. reflexivity. Qed.

(** X4. Of several entries with the same name only the first is read,
    and entries under other names are never read: once a form has a
    [customerId], an [amount] and a [status] entry, whatever is submitted
    after them changes nothing to what [createInvoice] and
    [updateInvoice] do. *)
Theorem later_entries_are_ignored env id prevState formData more w :
  FormData_get formData "customerId" <> VNull ->
  FormData_get formData "amount" <> VNull ->
  FormData_get formData "status" <> VNull ->
  createInvoice env prevState (formData ++ more) w =
    createInvoice env prevState formData w /\
  updateInvoice env id prevState (formData ++ more) w =
    updateInvoice env id prevState formData w.
Proof.
  intros Hc Ha Hs.
  assert (E : formFields (formData ++ more) = formFields formData).
  { apply formFields_ext; rewrite FormData_get_app;
      [destruct (FormData_get formData "customerId")
      |destruct (FormData_get formData "amount")
      |destruct (FormData_get formData "status")]; congruence. }
  unfold createInvoice, updateInvoice. rewrite E. split; reflexivity.
Qed.

Lemma later_entries_are_ignored_witness :
  createInvoice Example.env Example.noState
    (Example.form Example.delba "250" "paid"
       ++ [("amount", EntryString "-1"); ("id", EntryString "X")])
    Example.world =
  createInvoice Example.env Example.noState
    (Example.form Example.delba "250" "paid") Example.world.
Proof.
  apply (later_entries_are_ignored Example.env "X" Example.noState
           (Example.form Example.delba "250" "paid")
           [("amount", EntryString "-1"); ("id", EntryString "X")]
           Example.world); discriminate.
Defined.

(** ** The date of a new invoice, again *)

Section InvoiceDate.

Import Date.

Lemma dateString_of_Day t1 t2 : Day t1 = Day t2 -> dateString t1 = dateString t2.
Proof.
  intros H.
  assert (Hy : YearFromTime t1 = YearFromTime t2)
    by (unfold YearFromTime; rewrite H; reflexivity).
  assert (Hd : DayWithinYear t1 = DayWithinYear t2)
    by (unfold DayWithinYear; rewrite H, Hy; reflexivity).
  assert (Hl : InLeapYear t1 = InLeapYear t2)
    by (unfold InLeapYear; rewrite Hy; reflexivity).
  assert (Hm : MonthFromTime t1 = MonthFromTime t2)
    by (unfold MonthFromTime; rewrite Hd, Hl; reflexivity).
  unfold dateString, DateFromTime. rewrite Hy, Hm, Hd, Hl. reflexivity.
Qed.

End InvoiceDate.

(** X5. The time of day plays no role in the date of a new invoice: two
    clock readings on the same UTC day make [createInvoice] do the same
    thing, statement included. *)
Theorem same_day_same_invoice env t prevState formData w :
  Date.Day t = Date.Day (clock env) ->
  createInvoice {| clock := t; store := store env; signIn := signIn env |}
    prevState formData w =
  createInvoice env prevState formData w.
Proof.
  intros H.
  destruct (safeParse_cases formData) as [(c & n & s & Hv) | [issues Hrej]].
  - rewrite !(createInvoice_valid _ prevState formData w c n s Hv).
    cbn [clock store]. rewrite !today_dateString.
    rewrite (dateString_of_Day _ _ H). reflexivity.
  - rewrite !(createInvoice_invalid _ prevState formData w issues Hrej).
    reflexivity.
Qed.

Lemma same_day_same_invoice_witness :
  createInvoice {| clock := 1699920000000; store := store Example.env;
                   signIn := signIn Example.env |}
    Example.noState (Example.form Example.delba "250" "paid") Example.world =
  createInvoice Example.env Example.noState
    (Example.form Example.delba "250" "paid") Example.world.
Proof.
  apply (same_day_same_invoice Example.env 1699920000000). reflexivity.
Defined.

(** X6. In the years 0 to 9999 the date of a new invoice can be read
    back: it is a four-digit year, a two-digit month and a two-digit day
    joined by hyphens, whose values are the calendar year of the clock
    reading, a month from 1 to 12 and a day from 1 to 31, and the year is
    the one whose first day is the last not after the clock's day. *)
Theorem invoice_date_reads_back t :
  0 <= Date.YearFromTime t <= 9999 ->
  exists Y M D,
    today t = VString (string_of_list_ascii (Y ++ "-"%char :: M ++ "-"%char :: D)) /\
    length Y = 4%nat /\ length M = 2%nat /\ length D = 2%nat /\
    digitsMV 10 Y = Date.YearFromTime t /\
    digitsMV 10 M = Date.MonthFromTime t + 1 /\
    digitsMV 10 D = Date.DateFromTime t /\
    1 <= digitsMV 10 M <= 12 /\ 1 <= digitsMV 10 D <= 31 /\
    Date.DayFromYear (digitsMV 10 Y) <= Date.Day t
      < Date.DayFromYear (digitsMV 10 Y + 1).
Proof.
  intros Hy.
  pose proof (MonthFromTime_range t) as Hm.
  pose proof (DateFromTime_range t) as Hd.
  exists (Date.padDigits 4 (Date.YearFromTime t)),
         (Date.padDigits 2 (Date.MonthFromTime t + 1)),
         (Date.padDigits 2 (Date.DateFromTime t)).
  rewrite today_dateString, dateString_YYYY_MM_DD by exact Hy.
  rewrite !length_padDigits.
  rewrite !padDigits_reads_back by (cbn; lia).
  repeat split; try lia; apply YearFromTime_spec.
Qed.

Lemma invoice_date_reads_back_witness :
  exists Y M D,
    today Example.now =
      VString (string_of_list_ascii (Y ++ "-"%char :: M ++ "-"%char :: D)) /\
    length Y = 4%nat /\ length M = 2%nat /\ length D = 2%nat /\
    digitsMV 10 Y = 2023 /\ digitsMV 10 M = 11 /\ digitsMV 10 D = 14.
Proof.
  destruct (invoice_date_reads_back Example.now)
    as (Y & M & D & H1 & H2 & H3 & H4 & H5 & H6 & H7 & _).
  - vm_compute. split; discriminate.
  - exists Y, M, D. repeat split; assumption.
Defined.

(** ** The table under a store that implements SQL *)

Section Table.

Variables (env : Env) (prevState : State).
Hypothesis Hsql : implementsSQL (store env).

(** A successful create or update was made with a valid form and the
    table is the one the statement gives. *)
Lemma createInvoice_redirect_inv formData w w' url :
  createInvoice env prevState formData w = (Thrown (RedirectError url), w') ->
  exists c n s newId,
    validFields formData c n s /\
    invoices w' =
      invoices w ++
      [ {| row_id := newId; row_customer_id := VString c;
           row_amount := VNumber (Number.mul n (Number.of_Z 100));
           row_status := VString s; row_date := today (clock env) |} ].
Proof.
  intros Hrun.
  destruct (safeParse_cases formData) as [(c & n & s & Hv) | [issues Hrej]].
  2:{ rewrite (createInvoice_invalid env prevState formData w issues Hrej) in Hrun.
      discriminate. }
  rewrite (createInvoice_valid env prevState formData w c n s Hv) in Hrun.
  cbv zeta in Hrun.
  destruct (store env _ (invoices w)) as [e|tbl] eqn:Hstore; [discriminate|].
  injection Hrun as _ <-.
  destruct (Hsql _ _ _ Hstore) as [newId ->].
  exists c, n, s, newId. split; [exact Hv | reflexivity].
Qed.

Lemma updateInvoice_redirect_inv id formData w w' url :
  updateInvoice env id prevState formData w = (Thrown (RedirectError url), w') ->
  exists c n s,
    validFields formData c n s /\
    invoices w' =
      runStatement EmptyString
        (UPDATE_invoices (VString c) (VNumber (Number.mul n (Number.of_Z 100)))
           (VString s) id) (invoices w).
Proof.
  intros Hrun.
  destruct (safeParse_cases formData) as [(c & n & s & Hv) | [issues Hrej]].
  2:{ rewrite (updateInvoice_invalid env prevState formData w id issues) in Hrun
        by (rewrite UpdateInvoice_shape; exact Hrej). discriminate. }
  rewrite (updateInvoice_valid env prevState formData w id c n s Hv) in Hrun.
  cbv zeta in Hrun.
  destruct (store env _ (invoices w)) as [e|tbl] eqn:Hstore; [discriminate|].
  injection Hrun as _ <-.
  destruct (Hsql _ _ _ Hstore) as [newId ->].
  exists c, n, s. split; [exact Hv | reflexivity].
Qed.


End Table.


Lemma acceptingStore_implementsSQL : implementsSQL acceptingStore.
Proof. intros st tbl tbl' [= <-]. eexists. reflexivity. Qed.

(** X7. On a store that implements SQL, a successful [createInvoice]
    leaves every existing row as it was and adds exactly one row at the
    end, holding the customer, the amount times 100, the status and the
    date of the clock reading. *)
Theorem createInvoice_appends_one_row env prevState formData w w' :
  implementsSQL (store env) ->
  createInvoice env prevState formData w =
    (Thrown (RedirectError "/dashboard/invoices"), w') ->
  exists c n s newId,
    validFields formData c n s /\
    invoices w' =
      invoices w ++
      [ {| row_id := newId; row_customer_id := VString c;
           row_amount := VNumber (Number.mul n (Number.of_Z 100));
           row_status := VString s; row_date := today (clock env) |} ] /\
    length (invoices w') = S (length (invoices w)).
Proof.
  intros Hsql Hrun.
  destruct (createInvoice_redirect_inv env prevState Hsql _ _ _ _ Hrun)
    as (c & n & s & newId & Hv & Ht).
  exists c, n, s, newId. split; [exact Hv|]. split; [exact Ht|].
  rewrite Ht, length_app. cbn. lia.
Qed.

Lemma createInvoice_appends_one_row_witness :
  let w' := snd (createInvoice Example.env Example.noState
                   (Example.form Example.delba "250" "paid") Example.world) in
  exists c n s newId,
    validFields (Example.form Example.delba "250" "paid") c n s /\
    invoices w' =
      invoices Example.world ++
      [ {| row_id := newId; row_customer_id := VString c;
           row_amount := VNumber (Number.mul n (Number.of_Z 100));
           row_status := VString s; row_date := today Example.now |} ] /\
    length (invoices w') = 2%nat.
Proof.
  cbv zeta.
  apply (createInvoice_appends_one_row Example.env Example.noState
           (Example.form Example.delba "250" "paid") Example.world).
  - exact acceptingStore_implementsSQL.
  - reflexivity.
Defined.



(** X9. [updateInvoice] does not check that the row exists.  With a
    valid form and an identifier that no row has, whenever the store
    accepts the UPDATE the action ends by the redirect, having sent that
    one statement and invalidated the invoices list, and on a store that
    implements SQL the table is left exactly as it was.  (A store that
    refuses the statement makes it return the database error, as for any
    other identifier.) *)
Theorem updateInvoice_unknown_id env id prevState formData w c n s tbl :
  implementsSQL (store env) ->
  (forall r, r ∈ invoices w -> row_id r <> id) ->
  validFields formData c n s ->
  store env
    (UPDATE_invoices (VString c) (VNumber (Number.mul n (Number.of_Z 100)))
       (VString s) id) (invoices w) = inr tbl ->
  updateInvoice env id prevState formData w =
    (Thrown (RedirectError "/dashboard/invoices"),
     {| invoices := invoices w;
        issued := issued w ++
          [ UPDATE_invoices (VString c)
              (VNumber (Number.mul n (Number.of_Z 100))) (VString s) id ];
        revalidated := revalidated w ++ ["/dashboard/invoices"] |}).
Proof.
  intros Hsql Hno Hv Hstore.
  rewrite (updateInvoice_valid env prevState formData w id c n s Hv).
  cbv zeta. rewrite Hstore.
  destruct (Hsql _ _ _ Hstore) as [newId ->].
  assert (E : runStatement newId
                (UPDATE_invoices (VString c)
                   (VNumber (Number.mul n (Number.of_Z 100))) (VString s) id)
                (invoices w) = invoices w).
  { cbn [runStatement]. rewrite <- (map_id (invoices w)) at 2.
    apply map_ext_in. intros r Hr.
    apply list_elem_of_In in Hr. specialize (Hno r Hr).
    destruct (String.eqb_spec (row_id r) id); [contradiction | reflexivity]. }
  unfold applied. rewrite E. reflexivity.
Qed.

Lemma updateInvoice_unknown_id_witness :
  updateInvoice Example.env "Y" Example.noState
    (Example.form "C2" "10" "pending") Example.world =
  (Thrown (RedirectError "/dashboard/invoices"),
   {| invoices := invoices Example.world;
      issued :=
        [ UPDATE_invoices (VString "C2") (VNumber (Number.of_Z 1000))
            (VString "pending") "Y" ];
      revalidated := ["/dashboard/invoices"] |}).
Proof.
  apply (updateInvoice_unknown_id Example.env "Y" Example.noState
           (Example.form "C2" "10" "pending") Example.world
           "C2" (Number.of_Z 10) "pending" (invoices Example.world)).
  - exact acceptingStore_implementsSQL.
  - intros r Hr. apply list_elem_of_singleton in Hr. subst r. discriminate.
  - unfold validFields. repeat split; try reflexivity. left; reflexivity.
  - reflexivity.
Defined.

(** X10. Of two successful updates of the same identifier the second
    wins: on a store that implements SQL the table after both is the
    table the second update alone would have given. *)
Theorem updateInvoice_last_wins env id prevState form1 form2 w w1 w2 w2' :
  implementsSQL (store env) ->
  updateInvoice env id prevState form1 w =
    (Thrown (RedirectError "/dashboard/invoices"), w1) ->
  updateInvoice env id prevState form2 w1 =
    (Thrown (RedirectError "/dashboard/invoices"), w2) ->
  updateInvoice env id prevState form2 w =
    (Thrown (RedirectError "/dashboard/invoices"), w2') ->
  invoices w2 = invoices w2'.
Proof.
  intros Hsql H1 H2 H2'.
  destruct (updateInvoice_redirect_inv env prevState Hsql _ _ _ _ _ H1)
    as (c1 & n1 & s1 & _ & E1).
  destruct (updateInvoice_redirect_inv env prevState Hsql _ _ _ _ _ H2)
    as (c2 & n2 & s2 & Hv2 & E2).
  destruct (updateInvoice_redirect_inv env prevState Hsql _ _ _ _ _ H2')
    as (c2' & n2' & s2' & Hv2' & E2').
  assert (c2' = c2 /\ n2' = n2 /\ s2' = s2) as (-> & -> & ->).
  { destruct Hv2 as (A & B & _ & _ & C & _), Hv2' as (A' & B' & _ & _ & C' & _).
    repeat split; congruence. }
  rewrite E2, E2', E1. cbn [runStatement]. rewrite map_map.
  apply map_ext. intros r.
  destruct (String.eqb (row_id r) id) eqn:E; cbn [row_id row_date];
    rewrite E; reflexivity.
Qed.

Lemma updateInvoice_last_wins_witness :
  invoices
    (snd (updateInvoice Example.env "X" Example.noState
            (Example.form "C2" "10" "pending")
            (snd (updateInvoice Example.env "X" Example.noState
                    (Example.form "C3" "99" "paid") Example.world)))) =
  invoices
    (snd (updateInvoice Example.env "X" Example.noState
            (Example.form "C2" "10" "pending") Example.world)).
Proof.
  apply (updateInvoice_last_wins Example.env "X" Example.noState
           (Example.form "C3" "99" "paid") (Example.form "C2" "10" "pending")
           Example.world
           (snd (updateInvoice Example.env "X" Example.noState
                   (Example.form "C3" "99" "paid") Example.world))).
  - exact acceptingStore_implementsSQL.
  - reflexivity.
  - reflexivity.
  - reflexivity.
Defined.

(** X11. Creating an invoice and deleting it again is a round trip when
    the store accepts both statements: on a store that implements SQL, a
    successful create appends one row, and if no row had that row's
    identifier and the store accepts the DELETE of it, [deleteInvoice]
    reports the deletion and the table is back to what it was. *)
Theorem create_then_delete_restores env prevState formData w w1 :
  implementsSQL (store env) ->
  createInvoice env prevState formData w =
    (Thrown (RedirectError "/dashboard/invoices"), w1) ->
  exists r,
    invoices w1 = invoices w ++ [r] /\
    ((forall r', r' ∈ invoices w -> row_id r' <> row_id r) ->
     forall tbl2,
       store env (DELETE_FROM_invoices (row_id r)) (invoices w1) = inr tbl2 ->
       exists w2,
         deleteInvoice env (row_id r) w1 =
           (Returned {| errors := None; message := Some "DELETED INVOICE." |}, w2) /\
         invoices w2 = invoices w).
Proof.
  intros Hsql Hrun.
  destruct (createInvoice_redirect_inv env prevState Hsql _ _ _ _ Hrun)
    as (c & n & s & newId & _ & Ht).
  eexists. split; [exact Ht|]. cbn [row_id]. intros Hfresh tbl2 Hdel.
  rewrite deleteInvoice_run. cbv zeta. rewrite Hdel.
  eexists. split; [reflexivity|]. cbn [applied invoices].
  destruct (Hsql _ _ _ Hdel) as [newId' ->]. cbn [runStatement]. rewrite Ht.
  change Table with (list InvoiceRow) in *.
  rewrite filter_app, filter_cons, filter_nil. cbn [row_id].
  rewrite decide_False by tauto. rewrite app_nil_r.
  clear Ht Hdel Hrun. induction (invoices w) as [|r' l IH]; [reflexivity|].
  rewrite filter_cons. rewrite decide_True.
  - rewrite IH; [reflexivity|]. intros r'' Hr''. apply Hfresh. right. exact Hr''.
  - apply Hfresh. left.
Qed.

Lemma create_then_delete_restores_witness :
  exists w2,
    deleteInvoice Example.env "1"
      (snd (createInvoice Example.env Example.noState
              (Example.form Example.delba "250" "paid") Example.world)) =
      (Returned {| errors := None; message := Some "DELETED INVOICE." |}, w2) /\
    invoices w2 = invoices Example.world.
Proof.
  destruct (create_then_delete_restores Example.env Example.noState
              (Example.form Example.delba "250" "paid") Example.world
              (snd (createInvoice Example.env Example.noState
                      (Example.form Example.delba "250" "paid") Example.world)))
    as (r & Hr & Hdel).
  - exact acceptingStore_implementsSQL.
  - reflexivity.
  - assert (Er : r = {| row_id := "1"; row_customer_id := VString Example.delba;
                        row_amount := VNumber (Number.of_Z 25000);
                        row_status := VString "paid";
                        row_date := VString "2023-11-14" |}).
    { change (invoices Example.world ++
                [ {| row_id := "1"; row_customer_id := VString Example.delba;
                     row_amount := VNumber (Number.of_Z 25000);
                     row_status := VString "paid";
                     row_date := VString "2023-11-14" |} ]
              = invoices Example.world ++ [r]) in Hr.
      apply app_inv_head in Hr. injection Hr as <-. reflexivity. }
    subst r. cbn [row_id] in Hdel.
    apply (Hdel ltac:(intros r' Hr'; apply list_elem_of_singleton in Hr';
                      subst r'; discriminate)
                (invoices Example.world)).
    reflexivity.
Defined.

(** ** Amounts that can never pass *)

Section BadAmounts.

Variables (env : Env) (prevState : State) (id : string)
          (formData : FormData) (w : World).

(** A form whose amount coerces to NaN or to a number [<= 0] is
    rejected by both actions, with one message for [amount]. *)
Lemma amount_rejected :
  let n := ToNumber (FormData_get formData "amount") in
  Number.isNaN n = true \/ Number.leb n (Number.of_Z 0) = true ->
  exists errs,
    createInvoice env prevState formData w =
      (Returned {| errors := Some errs;
                   message := Some "MISSING FIELDS. FAILED TO CREATE INVOICE." |}, w) /\
    updateInvoice env id prevState formData w =
      (Returned {| errors := Some errs;
                   message := Some "MISSING FIELDS. FAILED TO UPDATE INVOICE." |}, w) /\
    errs !! "amount" =
      Some [ if Number.isNaN n then "Expected number, received nan"
             else "PLEASE ENTER AN AMOUNT GREATER THAN $0." ].
Proof.
  intros n Hn.
  destruct (amount_contributes (FormData_get formData "amount"))
    as (la & Ma & La & Aa & Oa).
  destruct (rejected_when formData) as [issues Hrej].
  { right; left. intros v. rewrite parse_amount. cbv zeta. fold n.
    destruct (Number.isNaN n); [discriminate|].
    destruct Hn as [Hn|Hn]; [discriminate|]. rewrite Hn. discriminate. }
  exists (z.fieldErrors issues).
  destruct (rejected_both env prevState id formData w issues Hrej) as [Hc Hu].
  split; [exact Hc|]. split; [exact Hu|].
  rewrite (fieldErrors_of_form formData issues _ Hrej).
  destruct (customerId_contributes (FormData_get formData "customerId"))
    as (lc & Mc & _).
  destruct (status_contributes (FormData_get formData "status"))
    as (ls & Ms & _).
  rewrite Mc, Ms. rewrite !decide_False by discriminate. cbn [app].
  rewrite app_nil_r. rewrite parse_amount. cbv zeta. fold n.
  destruct (Number.isNaN n); [reflexivity|].
  destruct Hn as [Hn|Hn]; [discriminate|]. rewrite Hn. reflexivity.
Qed.

End BadAmounts.

Section Sign.

(** A rounded value keeps the sign it was given: with a minus sign it is
    never above zero. *)
Lemma binary_round_aux_minus m e l :
  let x := binary_round_aux Number.prec Number.emax true m e l in
  Number.isNaN x = true \/ Number.leb x (Number.of_Z 0) = true.
Proof.
  cbv zeta. unfold binary_round_aux.
  destruct (shr_fexp _ _ m e l) as [mrs' e'].
  destruct (shr_fexp _ _ _ e' loc_Exact) as [mrs'' e''].
  destruct (shr_m mrs'') as [|p|p]; [right; reflexivity | | left; reflexivity].
  destruct (e'' <=? _); right; reflexivity.
Qed.

Lemma of_decimal_minus m e :
  let x := Number.of_decimal true m e in
  Number.isNaN x = true \/ Number.leb x (Number.of_Z 0) = true.
Proof.
  cbv zeta. unfold Number.of_decimal.
  destruct m as [|p|p]; [right; reflexivity | | right; reflexivity].
  destruct (0 <=? e).
  - unfold binary_round. destruct (shl_align _ _ _) as [mz ez].
    apply binary_round_aux_minus.
  - unfold SFdiv. destruct (SFdiv_core_binary _ _ _ _ _ _) as [[mz ez] lz].
    apply binary_round_aux_minus.
Qed.

Lemma StringToNumber_minus a body :
  trim (list_ascii_of_string a) = "-"%char :: body ->
  Number.isNaN (StringToNumber a) = true \/
  Number.leb (StringToNumber a) (Number.of_Z 0) = true.
Proof.
  intros H. unfold StringToNumber. rewrite H.
  change (parseNonDecimal ("-"%char :: body)) with (@None Number.t).
  change (parseStrDecimalLiteral ("-"%char :: body)) with
    (if list_ascii_eqb body Infinity_literal then Number.infinity true
     else match parseUnsignedDecimal body with
          | Some (m, e) => Number.of_decimal true m e
          | None => Number.NaN
          end).
  destruct (list_ascii_eqb body Infinity_literal); [right; reflexivity|].
  destruct (parseUnsignedDecimal body) as [[m e]|]; [|left; reflexivity].
  apply of_decimal_minus.
Qed.

End Sign.

(** X12. An amount written with a minus sign never passes, whatever
    follows the sign: when the amount, white space trimmed, starts with
    [-], both actions reject the form with an error for [amount] and send
    nothing to the store. *)
Theorem minus_sign_never_passes env prevState id formData w a body :
  FormData_get formData "amount" = VString a ->
  trim (list_ascii_of_string a) = "-"%char :: body ->
  exists errs m,
    createInvoice env prevState formData w =
      (Returned {| errors := Some errs;
                   message := Some "MISSING FIELDS. FAILED TO CREATE INVOICE." |}, w) /\
    updateInvoice env id prevState formData w =
      (Returned {| errors := Some errs;
                   message := Some "MISSING FIELDS. FAILED TO UPDATE INVOICE." |}, w) /\
    errs !! "amount" = Some [m].
Proof.
  intros Ha Htrim.
  destruct (amount_rejected env prevState id formData w) as (errs & Hc & Hu & He).
  { rewrite Ha. cbn [ToNumber]. eapply StringToNumber_minus, Htrim. }
  exists errs. eexists. split; [exact Hc|]. split; [exact Hu | exact He].
Qed.

Lemma minus_sign_never_passes_witness :
  exists errs m,
    createInvoice Example.env Example.noState
      (Example.form Example.delba " -1e-400" "paid") Example.world =
      (Returned {| errors := Some errs;
                   message := Some "MISSING FIELDS. FAILED TO CREATE INVOICE." |},
       Example.world) /\
    updateInvoice Example.env "X" Example.noState
      (Example.form Example.delba " -1e-400" "paid") Example.world =
      (Returned {| errors := Some errs;
                   message := Some "MISSING FIELDS. FAILED TO UPDATE INVOICE." |},
       Example.world) /\
    errs !! "amount" = Some [m].
Proof.
  apply (minus_sign_never_passes Example.env Example.noState "X"
           (Example.form Example.delba " -1e-400" "paid") Example.world
           " -1e-400" (list_ascii_of_string "1e-400")); reflexivity.
Defined.

Section Blank.

Lemma dropWhiteSpace_blank fuel s :
  Forall (fun c => isAsciiWhiteSpace (code c) = true) s ->
  (length s <= fuel)%nat ->
  dropWhiteSpace wsPrefix fuel s = [].
Proof.
  revert s. induction fuel as [|fuel IH]; intros s Hs Hl.
  - destruct s; [reflexivity | cbn [length] in Hl; lia].
  - destruct s as [|c r]; [reflexivity|].
    apply Forall_cons in Hs as [Hc Hr]. cbn [dropWhiteSpace wsPrefix].
    rewrite Hc. change (skipn 1 (c :: r)) with r.
    apply IH; [exact Hr | cbn [length] in Hl; lia].
Qed.

Lemma StringToNumber_blank a :
  Forall (fun c => isAsciiWhiteSpace (code c) = true) (list_ascii_of_string a) ->
  StringToNumber a = Number.pos_zero.
Proof.
  intros H. unfold StringToNumber, trim.
  rewrite (dropWhiteSpace_blank (length (list_ascii_of_string a)) _ H (Nat.le_refl _)).
  reflexivity.
Qed.

End Blank.

(** X13. A form without an amount, or whose amount is empty or made of
    spaces, tabs and line breaks only, is treated as the amount 0: both
    actions reject it with the greater-than-0 message, not with a type
    error, and send nothing to the store. *)
Theorem blank_amount_is_zero env prevState id formData w :
  FormData_get formData "amount" = VNull \/
  (exists a, FormData_get formData "amount" = VString a /\
             Forall (fun c => isAsciiWhiteSpace (code c) = true)
                    (list_ascii_of_string a)) ->
  ToNumber (FormData_get formData "amount") = Number.pos_zero /\
  exists errs,
    createInvoice env prevState formData w =
      (Returned {| errors := Some errs;
                   message := Some "MISSING FIELDS. FAILED TO CREATE INVOICE." |}, w) /\
    updateInvoice env id prevState formData w =
      (Returned {| errors := Some errs;
                   message := Some "MISSING FIELDS. FAILED TO UPDATE INVOICE." |}, w) /\
    errs !! "amount" = Some ["PLEASE ENTER AN AMOUNT GREATER THAN $0."].
Proof.
  intros H.
  assert (Hz : ToNumber (FormData_get formData "amount") = Number.pos_zero).
  { destruct H as [-> | (a & -> & Hb)]; [reflexivity|].
    apply StringToNumber_blank, Hb. }
  split; [exact Hz|].
  destruct (amount_rejected env prevState id formData w) as (errs & Hc & Hu & He).
  { rewrite Hz. right. reflexivity. }
  rewrite Hz in He. exists errs. split; [exact Hc|]. split; [exact Hu | exact He].
Qed.

Lemma blank_amount_is_zero_witness :
  exists errs,
    createInvoice Example.env Example.noState
      [("customerId", EntryString Example.delba); ("status", EntryString "paid")]
      Example.world =
      (Returned {| errors := Some errs;
                   message := Some "MISSING FIELDS. FAILED TO CREATE INVOICE." |},
       Example.world) /\
    updateInvoice Example.env "X" Example.noState
      [("customerId", EntryString Example.delba); ("status", EntryString "paid")]
      Example.world =
      (Returned {| errors := Some errs;
                   message := Some "MISSING FIELDS. FAILED TO UPDATE INVOICE." |},
       Example.world) /\
    errs !! "amount" = Some ["PLEASE ENTER AN AMOUNT GREATER THAN $0."].
Proof.
  apply (blank_amount_is_zero Example.env Example.noState "X"
           [("customerId", EntryString Example.delba); ("status", EntryString "paid")]
           Example.world).
  left. reflexivity.
Defined.

(** ** What omitting [id] and [date] does *)

Section Omit.

Import z.

(** A property outside the shape plays no role in the parse. *)
Lemma parseShape_insert_other (shape : ZodObject) (data : Object) k v :
  k ∉ (fst <$> shape) ->
  parseShape shape (<[k := v]> data) = parseShape shape data.
Proof.
  induction shape as [|[k' ty] rest IH]; intros Hk; [reflexivity|].
  rewrite fmap_cons in Hk. cbn [fst] in Hk.
  apply not_elem_of_cons in Hk as [Hne Hrest].
  cbn [parseShape]. rewrite (IH Hrest). unfold prop.
  rewrite lookup_insert_ne by exact Hne. reflexivity.
Qed.

Lemma parse_OK_customerId v v' :
  fst (parse customerIdSchema ["customerId"] v) = OK v' ->
  exists s, v = VString s /\ v' = VString s.
Proof.
  rewrite parse_customerId. destruct v; cbn [fst]; try discriminate.
  intros [= <-]. eauto.
Qed.

Lemma parse_OK_amount v v' :
  fst (parse amountSchema ["amount"] v) = OK v' ->
  v' = VNumber (ToNumber v) /\ Number.isNaN (ToNumber v) = false /\
  Number.leb (ToNumber v) (Number.of_Z 0) = false.
Proof.
  rewrite parse_amount. cbv zeta.
  destruct (Number.isNaN (ToNumber v)); cbn [fst]; [discriminate|].
  destruct (Number.leb (ToNumber v) (Number.of_Z 0)); cbn [fst]; [discriminate|].
  intros [= <-]. auto.
Qed.

Lemma parse_OK_status v v' :
  fst (parse statusSchema ["status"] v) = OK v' ->
  exists s, v = VString s /\ v' = VString s /\ (s = "pending" \/ s = "paid").
Proof.
  rewrite parse_status. destruct v as [| |s|n|f]; cbn [fst]; try discriminate.
  destruct (bool_decide (s = "pending" \/ s = "paid")) eqn:E;
    cbn [fst]; [|discriminate].
  apply bool_decide_eq_true in E. intros [= <-]. eauto.
Qed.

End Omit.

(** X14. The create and update schemas look at three properties only.
    Whatever else the parsed object carries, an [id] or a [date]
    included, does not change the result, and the data of a successful
    parse has exactly the keys [customerId], [amount] and [status]: a
    string, a number that is neither NaN nor [<= 0], and one of the two
    statuses. *)
Theorem schema_strips_other_keys (data : Object) k v :
  k <> "customerId" -> k <> "amount" -> k <> "status" ->
  z.safeParse CreateInvoice (<[k := v]> data) = z.safeParse CreateInvoice data /\
  z.safeParse UpdateInvoice (<[k := v]> data) = z.safeParse UpdateInvoice data /\
  (forall out,
     z.safeParse CreateInvoice (<[k := v]> data) = z.SafeParseSuccess out ->
     out !! k = None /\
     dom out = {[ "customerId"; "amount"; "status" ]} /\
     exists c n s,
       out = validatedData c n s /\
       prop data "customerId" = VString c /\
       ToNumber (prop data "amount") = n /\
       Number.isNaN n = false /\ Number.leb n (Number.of_Z 0) = false /\
       prop data "status" = VString s /\ (s = "pending" \/ s = "paid")).
Proof.
  intros H1 H2 H3.
  assert (E : z.safeParse CreateInvoice (<[k := v]> data)
              = z.safeParse CreateInvoice data).
  { unfold z.safeParse. rewrite parseShape_insert_other; [reflexivity|].
    rewrite CreateInvoice_shape. cbn.
    rewrite !not_elem_of_cons. repeat split; auto using not_elem_of_nil. }
  split; [exact E|]. split; [rewrite UpdateInvoice_shape; exact E|].
  intros out. rewrite E. unfold z.safeParse.
  rewrite CreateInvoice_shape. cbn [z.parseShape].
  destruct (z.parse customerIdSchema ["customerId"] (prop data "customerId"))
    as [rc ic] eqn:Ec.
  destruct (z.parse amountSchema ["amount"] (prop data "amount"))
    as [ra ia] eqn:Ea.
  destruct (z.parse statusSchema ["status"] (prop data "status"))
    as [rs i_s] eqn:Es.
  apply (f_equal fst) in Ec, Ea, Es. cbn [fst] in Ec, Ea, Es.
  destruct rc as [vc| |], ra as [va| |], rs as [vs| |]; try discriminate;
    try (destruct vc; discriminate); try (destruct va; discriminate);
    try (destruct vc, va; discriminate).
  apply parse_OK_customerId in Ec as (c & Hc & ->).
  apply parse_OK_amount in Ea as (-> & Hnan & Hle).
  apply parse_OK_status in Es as (s & Hs & -> & Hin).
  intros [= <-].
  change (<["customerId":=VString c]>
            (<["amount":=VNumber (ToNumber (prop data "amount"))]>
               (<["status":=VString s]> ∅)))
    with (validatedData c (ToNumber (prop data "amount")) s).
  split; [|split].
  - unfold validatedData. rewrite !lookup_insert_ne by congruence.
    apply lookup_empty.
  - unfold validatedData. rewrite !dom_insert_L, dom_empty_L. set_solver.
  - exists c, (ToNumber (prop data "amount")), s. auto 10.
Qed.

Lemma schema_strips_other_keys_witness :
  z.safeParse CreateInvoice
    (<["id" := VString "X"]>
       (formFields (Example.form Example.delba "250" "paid"))) =
  z.safeParse CreateInvoice (formFields (Example.form Example.delba "250" "paid")).
Proof.
  apply (schema_strips_other_keys
           (formFields (Example.form Example.delba "250" "paid"))
           "id" (VString "X")); discriminate.
Defined.

(** X15. The two omissions are what lets a form pass: the full form
    schema rejects every form, since a form never carries [id] or
    [date], and reports both as required. *)
Theorem full_schema_rejects_forms formData :
  exists issues,
    z.safeParse FormSchema (formFields formData) = z.SafeParseError issues /\
    z.fieldErrors issues !! "id" = Some ["Required"] /\
    z.fieldErrors issues !! "date" = Some ["Required"].
Proof.
  unfold z.safeParse, FormSchema. cbn [z.parseShape].
  change (prop (formFields formData) "id") with VUndefined.
  change (prop (formFields formData) "date") with VUndefined.
  change (z.parse (z.ZodString z.noParams) ["id"] VUndefined) with
    (z.INVALID,
     [ {| z.issue_code := z.invalid_type "string" "undefined";
          z.issue_path := ["id"]; z.issue_message := "Required" |} ]).
  change (z.parse (z.ZodString z.noParams) ["date"] VUndefined) with
    (z.INVALID,
     [ {| z.issue_code := z.invalid_type "string" "undefined";
          z.issue_path := ["date"]; z.issue_message := "Required" |} ]).
  destruct (customerId_contributes (prop (formFields formData) "customerId"))
    as (lc & Mc & _).
  destruct (amount_contributes (prop (formFields formData) "amount"))
    as (la & Ma & _).
  destruct (status_contributes (prop (formFields formData) "status"))
    as (ls & Ms & _).
  destruct (z.parse customerIdSchema _ _) as [rc ic].
  destruct (z.parse amountSchema _ _) as [ra ia].
  destruct (z.parse statusSchema _ _) as [rs i_s].
  cbn [snd] in Mc, Ma, Ms.
  eexists. split; [reflexivity|].
  rewrite !fieldErrors_lookup, !messagesAt_app, !messagesAt_single, !Mc, !Ma, !Ms.
  repeat first [ rewrite decide_True by reflexivity
               | rewrite decide_False by discriminate ].
  split; reflexivity.
Qed.

(** ** Whole amounts

    Integers below 2^53 are numbers, and the product of two of them is
    exact when it is below 2^53 too. *)

Section Integers.

Lemma digits2_pos_size p : digits2_pos p = Pos.size p.
Proof. induction p as [p IH|p IH|]; cbn; rewrite ?IH; reflexivity. Qed.

Lemma digits_bounds p :
  2 ^ (Zpos (digits2_pos p) - 1) <= Zpos p < 2 ^ Zpos (digits2_pos p).
Proof.
  rewrite digits2_pos_size.
  pose proof (Pos.size_gt p) as Hgt. pose proof (Pos.size_le p) as Hle.
  apply Pos2Z.pos_lt_pos in Hgt. apply Pos2Z.pos_le_pos in Hle.
  rewrite Pos2Z.inj_pow in Hgt, Hle.
  split; [|exact Hgt].
  replace (Zpos (Pos.size p)) with (Z.succ (Zpos (Pos.size p) - 1)) in Hle by lia.
  rewrite Z.pow_succ_r in Hle by lia. lia.
Qed.

Lemma digits_unique p d :
  2 ^ (d - 1) <= Zpos p < 2 ^ d -> Zpos (digits2_pos p) = d.
Proof.
  intros [Hlo Hhi]. pose proof (digits_bounds p) as [Blo Bhi].
  assert (Hd : 0 < d).
  { destruct (Z.ltb_spec 0 d); [assumption|].
    assert (2 ^ d <= 1).
    { destruct (Z.eq_dec d 0) as [->|]; [cbn; lia|].
      rewrite Z.pow_neg_r by lia. lia. }
    lia. }
  destruct (Z.lt_trichotomy (Zpos (digits2_pos p)) d) as [H | [H | H]];
    [|exact H|].
  - assert (2 ^ Zpos (digits2_pos p) <= 2 ^ (d - 1))
      by (apply Z.pow_le_mono_r; lia). lia.
  - assert (2 ^ d <= 2 ^ (Zpos (digits2_pos p) - 1))
      by (apply Z.pow_le_mono_r; lia). lia.
Qed.

Lemma Pos_iter_xO p n : Zpos (Pos.iter xO p n) = Zpos p * 2 ^ Zpos n.
Proof.
  induction n as [|n IH] using Pos.peano_ind.
  - cbn [Pos.iter]. rewrite Pos2Z.inj_xO. lia.
  - rewrite Pos.iter_succ, Pos2Z.inj_xO, IH, Pos2Z.inj_succ, Z.pow_succ_r by lia.
    lia.
Qed.

Lemma iter_pos_Pos_iter {A} (f : A -> A) n x :
  SpecFloat.iter_pos f n x = Pos.iter f x n.
Proof.
  revert x. induction n as [n IH|n IH|]; intros x; cbn [SpecFloat.iter_pos Pos.iter].
  - rewrite !IH. rewrite <- Pos.iter_swap. rewrite <- Pos.iter_swap. reflexivity.
  - rewrite !IH. reflexivity.
  - reflexivity.
Qed.

Lemma iter_shr_1_exact q n :
  SpecFloat.iter_pos shr_1 n
    {| shr_m := Zpos (Pos.iter xO q n); shr_r := false; shr_s := false |} =
  {| shr_m := Zpos q; shr_r := false; shr_s := false |}.
Proof.
  rewrite iter_pos_Pos_iter. revert q.
  induction n as [|n IH] using Pos.peano_ind; intros q.
  - reflexivity.
  - rewrite Pos.iter_succ, <- Pos.iter_swap, Pos.iter_succ.
    cbn [shr_1 orb]. apply IH.
Qed.

End Integers.

Section Rounding.

Lemma fexp_normal d :
  -1021 <= d -> fexp 53 1024 d = d - 53.
Proof. intros H. unfold fexp, emin. lia. Qed.

(** A mantissa of exactly 53 bits with an exponent in range is a number
    as it stands. *)
Lemma binary_round_aux_normal s m e :
  Zpos (digits2_pos m) = 53 -> -1074 <= e <= 971 ->
  binary_round_aux 53 1024 s (Zpos m) e loc_Exact = S754_finite s m e.
Proof.
  intros Hd He.
  assert (Hshr : shr_fexp 53 1024 (Zpos m) e loc_Exact =
                 ({| shr_m := Zpos m; shr_r := false; shr_s := false |}, e)).
  { unfold shr_fexp. cbn [Zdigits2 shr_record_of_loc]. rewrite Hd.
    rewrite fexp_normal by lia.
    replace (53 + e - 53 - e) with 0 by lia. reflexivity. }
  unfold binary_round_aux. rewrite Hshr.
  cbn [shr_m loc_of_shr_record round_nearest_even]. rewrite Hshr. cbn [shr_m].
  replace (e <=? 1024 - 53) with true by (symmetry; apply Z.leb_le; lia).
  reflexivity.
Qed.

(** A mantissa of 53 bits followed by [n] zero bits is rounded without
    loss. *)
Lemma binary_round_aux_shift s q n e :
  Zpos (digits2_pos q) = 53 -> -1074 <= e + Zpos n <= 971 ->
  binary_round_aux 53 1024 s (Zpos (Pos.iter xO q n)) e loc_Exact =
  S754_finite s q (e + Zpos n).
Proof.
  intros Hd He.
  assert (HdM : Zpos (digits2_pos (Pos.iter xO q n)) = 53 + Zpos n).
  { apply digits_unique. rewrite Pos_iter_xO.
    pose proof (digits_bounds q) as [Blo Bhi]. rewrite Hd in Blo, Bhi.
    replace (53 + Zpos n - 1) with (52 + Zpos n) by lia.
    rewrite !Z.pow_add_r by lia.
    change (53 - 1) with 52 in Blo.
    assert (0 < 2 ^ Zpos n) by (apply Z.pow_pos_nonneg; lia). nia. }
  assert (Hshr : shr_fexp 53 1024 (Zpos (Pos.iter xO q n)) e loc_Exact =
                 ({| shr_m := Zpos q; shr_r := false; shr_s := false |},
                  e + Zpos n)).
  { unfold shr_fexp. cbn [Zdigits2 shr_record_of_loc]. rewrite HdM.
    rewrite fexp_normal by lia.
    replace (53 + Zpos n + e - 53 - e) with (Zpos n) by lia.
    cbn [shr]. rewrite iter_shr_1_exact. reflexivity. }
  assert (Hshr' : shr_fexp 53 1024 (Zpos q) (e + Zpos n) loc_Exact =
                  ({| shr_m := Zpos q; shr_r := false; shr_s := false |},
                   e + Zpos n)).
  { unfold shr_fexp. cbn [Zdigits2 shr_record_of_loc]. rewrite Hd.
    rewrite fexp_normal by lia.
    replace (53 + (e + Zpos n) - 53 - (e + Zpos n)) with 0 by lia. reflexivity. }
  unfold binary_round_aux. rewrite Hshr.
  cbn [shr_m loc_of_shr_record round_nearest_even]. rewrite Hshr'. cbn [shr_m].
  replace (e + Zpos n <=? 1024 - 53) with true by (symmetry; apply Z.leb_le; lia).
  reflexivity.
Qed.

(** The number of a positive integer below 2^53: its bits, moved up to
    fill the 53 bits of the mantissa. *)
Lemma of_Z_pos p :
  Zpos p < 2 ^ 53 ->
  exists m,
    Number.of_Z (Zpos p) = S754_finite false m (Zpos (digits2_pos p) - 53) /\
    Zpos m = Zpos p * 2 ^ (53 - Zpos (digits2_pos p)) /\
    Zpos (digits2_pos m) = 53 /\
    Zpos (digits2_pos p) <= 53.
Proof.
  intros Hp. pose proof (digits_bounds p) as [Blo Bhi].
  assert (Hd : Zpos (digits2_pos p) <= 53).
  { destruct (Z.leb_spec (Zpos (digits2_pos p)) 53); [assumption|].
    assert (2 ^ 53 <= 2 ^ (Zpos (digits2_pos p) - 1))
      by (apply Z.pow_le_mono_r; lia). lia. }
  unfold Number.of_Z, binary_normalize, binary_round, Number.prec, Number.emax.
  rewrite Z.add_0_r, fexp_normal by lia. unfold shl_align.
  rewrite Z.sub_0_r.
  destruct (Zpos (digits2_pos p) - 53) as [|dd|dd] eqn:E; [| lia |].
  - exists p. rewrite binary_round_aux_normal by lia.
    replace (Zpos (digits2_pos p)) with 53 by lia. cbn. split; [reflexivity|].
    split; [lia|]. split; lia.
  - assert (HdM : Zpos (digits2_pos (Pos.iter xO p dd)) = 53).
    { apply digits_unique. rewrite Pos_iter_xO.
      assert (Hdd : Zpos dd = 53 - Zpos (digits2_pos p)) by lia.
      replace 53 with ((Zpos (digits2_pos p)) + Zpos dd) at 2 by lia.
      replace (53 - 1) with ((Zpos (digits2_pos p) - 1) + Zpos dd) by lia.
      rewrite !Z.pow_add_r by lia.
      assert (0 < 2 ^ Zpos dd) by (apply Z.pow_pos_nonneg; lia). nia. }
    exists (Pos.iter xO p dd). rewrite binary_round_aux_normal by lia.
    split; [reflexivity|]. split; [|split; [exact HdM | lia]].
    rewrite Pos_iter_xO. f_equal. f_equal. lia.
Qed.

End Rounding.

Section ExactProducts.

(** The product of two positive integers is exact when it stays below
    2^53. *)
Lemma mul_of_Z a b :
  0 < a -> 0 < b -> a * b < 2 ^ 53 ->
  Number.mul (Number.of_Z a) (Number.of_Z b) = Number.of_Z (a * b).
Proof.
  intros Ha Hb Hab.
  destruct a as [|pa|pa]; [lia | | lia]. destruct b as [|pb|pb]; [lia | | lia].
  change (Zpos pa * Zpos pb) with (Zpos (pa * pb)) in *.
  assert (Hpa : Zpos pa < 2 ^ 53) by nia.
  assert (Hpb : Zpos pb < 2 ^ 53) by nia.
  destruct (of_Z_pos pa Hpa) as (ma & Ea & Va & Da & La).
  destruct (of_Z_pos pb Hpb) as (mb & Eb & Vb & Db & Lb).
  destruct (of_Z_pos (pa * pb) Hab) as (mP & EP & VP & DP & LP).
  rewrite Ea, Eb, EP. unfold Number.mul, SFmul, Number.prec, Number.emax.
  cbn [xorb].
  pose proof (digits_bounds pa) as [Alo Ahi].
  pose proof (digits_bounds pb) as [Blo Bhi].
  pose proof (digits_bounds (pa * pb)) as [Plo Phi].
  set (da := Zpos (digits2_pos pa)) in *.
  set (db := Zpos (digits2_pos pb)) in *.
  set (dP := Zpos (digits2_pos (pa * pb))) in *.
  assert (Hda : 1 <= da) by (subst da; lia).
  assert (Hdb : 1 <= db) by (subst db; lia).
  assert (Hlow : da + db - 1 <= dP).
  { destruct (Z.leb_spec (da + db - 1) dP); [assumption|].
    assert (2 ^ dP <= 2 ^ (da + db - 2)) by (apply Z.pow_le_mono_r; lia).
    replace (da + db - 2) with ((da - 1) + (db - 1)) in * by lia.
    rewrite Z.pow_add_r in * by lia.
    rewrite Pos2Z.inj_mul in Phi.
    assert (0 < 2 ^ (da - 1)) by (apply Z.pow_pos_nonneg; lia).
    assert (0 < 2 ^ (db - 1)) by (apply Z.pow_pos_nonneg; lia).
    nia. }
  assert (Hn : 0 < 53 + dP - da - db) by lia.
  destruct (53 + dP - da - db) as [|n|n] eqn:En; [lia | | lia].
  assert (Hm : (ma * mb)%positive = Pos.iter xO mP n).
  { apply Pos2Z.inj. rewrite Pos_iter_xO, Pos2Z.inj_mul, Va, Vb, VP.
    rewrite <- En. rewrite Pos2Z.inj_mul.
    replace (53 + dP - da - db) with ((53 - da) + (53 - db) - (53 - dP)) by lia.
    assert (E2 : 2 ^ (53 - da) * 2 ^ (53 - db) =
                 2 ^ (53 - dP) * 2 ^ (53 - da + (53 - db) - (53 - dP))).
    { rewrite <- !Z.pow_add_r by lia. f_equal. lia. }
    nia. }
  rewrite Hm. rewrite binary_round_aux_shift by (try assumption; lia).
  f_equal. lia.
Qed.

(** A positive integer below 2^53 is read back from its number. *)
Lemma to_Z_of_Z a :
  0 < a < 2 ^ 53 -> Number.to_Z (Number.of_Z a) = Some a.
Proof.
  intros [Ha Hb]. destruct a as [|p|p]; [lia | | lia].
  destruct (of_Z_pos p Hb) as (m & E & V & D & L).
  rewrite E. unfold Number.to_Z. cbn [cond_Zopp].
  destruct (Z.leb_spec 0 (Zpos (digits2_pos p) - 53)) as [H|H].
  - assert (Hd : Zpos (digits2_pos p) = 53) by lia.
    rewrite Hd in V |- *. change (53 - 53) with 0 in *.
    rewrite Z.pow_0_r, Z.mul_1_r in *. rewrite V. reflexivity.
  - replace (- (Zpos (digits2_pos p) - 53)) with (53 - Zpos (digits2_pos p)) by lia.
    rewrite V.
    assert (Hpos : 0 < 2 ^ (53 - Zpos (digits2_pos p)))
      by (apply Z.pow_pos_nonneg; lia).
    rewrite Z.mod_mul by lia. cbn [Z.eqb]. rewrite Z.div_mul by lia. reflexivity.
Qed.

End ExactProducts.

Section DigitStrings.

Lemma digit_code c : isDecimalDigit c = true -> (48 <= code c <= 57)%nat.
Proof.
  unfold isDecimalDigit. intros H. apply andb_true_iff in H as [H1 H2].
  apply Nat.leb_le in H1, H2. lia.
Qed.

Ltac decide_codes :=
  repeat match goal with
         | |- context [(?a =? ?b)%nat] => destruct (Nat.eqb_spec a b); try lia
         | |- context [(?a <=? ?b)%nat] => destruct (Nat.leb_spec a b); try lia
         end;
  cbn [andb orb]; rewrite ?andb_false_r, ?orb_false_r; try reflexivity.

Lemma isAsciiWhiteSpace_digit c :
  isDecimalDigit c = true -> isAsciiWhiteSpace (code c) = false.
Proof.
  intros H. apply digit_code in H. unfold isAsciiWhiteSpace. decide_codes.
Qed.

Lemma wsPrefix_digit c r : isDecimalDigit c = true -> wsPrefix (c :: r) = 0%nat.
Proof.
  intros H. unfold wsPrefix. rewrite (isAsciiWhiteSpace_digit c H).
  apply digit_code in H.
  destruct r as [|c2 [|c3 r]]; [reflexivity | |].
  - destruct (Nat.eqb_spec (code c) 194); [lia | reflexivity].
  - destruct (Nat.eqb_spec (code c) 194); [lia|]. cbn [andb].
    unfold isWhiteSpace3.
    destruct (Nat.eqb_spec (code c) 225); [lia|].
    destruct (Nat.eqb_spec (code c) 226); [lia|].
    destruct (Nat.eqb_spec (code c) 227); [lia|].
    destruct (Nat.eqb_spec (code c) 239); [lia|]. reflexivity.
Qed.

Lemma wsSuffixRev_digit c r : isDecimalDigit c = true -> wsSuffixRev (c :: r) = 0%nat.
Proof.
  intros H. unfold wsSuffixRev. rewrite (isAsciiWhiteSpace_digit c H).
  apply digit_code in H.
  assert (E160 : (code c =? 160)%nat = false) by (apply Nat.eqb_neq; lia).
  destruct r as [|c2 [|c3 r]]; [reflexivity | |].
  - rewrite E160, andb_false_r. reflexivity.
  - rewrite E160, andb_false_r. unfold isWhiteSpace3.
    replace (code c =? 128)%nat with false by (symmetry; apply Nat.eqb_neq; lia).
    replace (128 <=? code c)%nat with false by (symmetry; apply Nat.leb_gt; lia).
    replace (code c =? 168)%nat with false by (symmetry; apply Nat.eqb_neq; lia).
    replace (code c =? 169)%nat with false by (symmetry; apply Nat.eqb_neq; lia).
    replace (code c =? 175)%nat with false by (symmetry; apply Nat.eqb_neq; lia).
    replace (code c =? 159)%nat with false by (symmetry; apply Nat.eqb_neq; lia).
    replace (code c =? 191)%nat with false by (symmetry; apply Nat.eqb_neq; lia).
    cbn [andb orb]. rewrite !andb_false_r. reflexivity.
Qed.

Lemma dropWhiteSpace_none ws fuel s : ws s = 0%nat -> dropWhiteSpace ws fuel s = s.
Proof. intros H. destruct fuel; cbn [dropWhiteSpace]; [|rewrite H]; reflexivity. Qed.

(** A string of digits has no white space to trim. *)
Lemma trim_digits ds :
  Forall (fun c => isDecimalDigit c = true) ds -> trim ds = ds.
Proof.
  intros H. unfold trim.
  destruct ds as [|c r]; [reflexivity|].
  rewrite (dropWhiteSpace_none wsPrefix _ (c :: r))
    by (apply wsPrefix_digit; apply Forall_cons in H; tauto).
  assert (Hrev : Forall (fun c => isDecimalDigit c = true) (rev (c :: r)))
    by (apply List.Forall_rev, H).
  destruct (rev (c :: r)) as [|c' r'] eqn:E.
  - apply (f_equal (@length ascii)) in E. rewrite length_rev in E. discriminate.
  - rewrite dropWhiteSpace_none
      by (apply wsSuffixRev_digit; apply Forall_cons in Hrev; tauto).
    rewrite <- E. apply rev_involutive.
Qed.

Lemma span_digits ds :
  Forall (fun c => isDecimalDigit c = true) ds ->
  span isDecimalDigit ds = (ds, []).
Proof.
  induction 1 as [|c r Hc _ IH]; [reflexivity|].
  cbn [span]. rewrite Hc, IH. reflexivity.
Qed.

Lemma nonDecimalRadix_digit c : isDecimalDigit c = true -> nonDecimalRadix c = None.
Proof.
  intros H. apply digit_code in H. unfold nonDecimalRadix. cbv zeta.
  repeat match goal with
         | |- context [(?a =? ?b)%nat] => destruct (Nat.eqb_spec a b); [lia|]
         end.
  reflexivity.
Qed.

Lemma parseNonDecimal_digits ds :
  Forall (fun c => isDecimalDigit c = true) ds -> parseNonDecimal ds = None.
Proof.
  intros H. destruct ds as [|c0 [|c1 rest]]; [reflexivity | |].
  - destruct c0 as [[] [] [] [] [] [] [] []]; reflexivity.
  - assert (Hc1 : nonDecimalRadix c1 = None).
    { apply nonDecimalRadix_digit.
      apply Forall_cons in H as [_ H]. apply Forall_cons in H. tauto. }
    destruct c0 as [[] [] [] [] [] [] [] []]; try reflexivity.
    cbn [parseNonDecimal]. rewrite Hc1. reflexivity.
Qed.

Lemma parseStrDecimalLiteral_digits ds :
  ds <> [] -> Forall (fun c => isDecimalDigit c = true) ds ->
  parseStrDecimalLiteral ds = Number.of_decimal false (digitsMV 10 ds) 0.
Proof.
  intros Hne H.
  assert (Hu : parseUnsignedDecimal ds = Some (digitsMV 10 ds, 0)).
  { unfold parseUnsignedDecimal. rewrite (span_digits ds H).
    destruct ds as [|c r]; [congruence|]. cbn [parseExponentPart length].
    rewrite app_nil_r. reflexivity. }
  destruct ds as [|c r]; [congruence|].
  apply Forall_cons in H as [Hc _].
  destruct c as [[] [] [] [] [] [] [] []]; try discriminate Hc;
    unfold parseStrDecimalLiteral;
    match goal with
    | |- context [list_ascii_eqb ?a ?b] =>
        change (list_ascii_eqb a b) with false
    end; rewrite Hu; reflexivity.
Qed.

Lemma digitsMV_nonneg ds : 0 <= digitsMV 10 ds.
Proof.
  unfold digitsMV.
  assert (G : forall acc, 0 <= acc ->
            0 <= fold_left (fun acc c => 10 * acc + digitValue c) ds acc).
  { induction ds as [|c r IH]; intros acc Hacc; [exact Hacc|].
    cbn [fold_left]. apply IH.
    assert (0 <= digitValue c).
    { unfold digitValue. cbv zeta.
      repeat match goal with |- context [if ?b then _ else _] => destruct b end;
        lia. }
    lia. }
  apply G. lia.
Qed.

(** An amount written with digits only coerces to the integer the
    digits spell. *)
Lemma StringToNumber_digits ds :
  ds <> [] -> Forall (fun c => isDecimalDigit c = true) ds ->
  StringToNumber (string_of_list_ascii ds) = Number.of_Z (digitsMV 10 ds).
Proof.
  intros Hne H. unfold StringToNumber.
  rewrite list_ascii_of_string_of_list_ascii, (trim_digits ds H).
  destruct ds as [|c r] eqn:E; [congruence|]. rewrite <- E in *.
  rewrite (parseNonDecimal_digits ds H), (parseStrDecimalLiteral_digits ds Hne H).
  rewrite E. rewrite <- E.
  pose proof (digitsMV_nonneg ds) as Hm. unfold Number.of_decimal.
  destruct (digitsMV 10 ds) as [|p|p]; [reflexivity | | lia].
  cbn [Z.leb Z.compare Z.pow Z.to_pos]. rewrite Pos.mul_1_r. reflexivity.
Qed.

End DigitStrings.

(** X16. Whole amounts give exact cents.  When the amount is written
    with digits only and spells a positive integer [k] with
    [100 * k < 2^53], the form passes the amount rule and the value both
    actions send to the store is exactly the integer [100 * k]. *)
Theorem whole_amount_exact_cents env prevState id formData w c ds s :
  FormData_get formData "customerId" = VString c ->
  FormData_get formData "amount" = VString (string_of_list_ascii ds) ->
  FormData_get formData "status" = VString s ->
  s = "pending" \/ s = "paid" ->
  ds <> [] -> Forall (fun ch => isDecimalDigit ch = true) ds ->
  0 < digitsMV 10 ds -> 100 * digitsMV 10 ds < 2 ^ 53 ->
  validFields formData c (Number.of_Z (digitsMV 10 ds)) s /\
  Number.to_Z (Number.of_Z (100 * digitsMV 10 ds)) = Some (100 * digitsMV 10 ds) /\
  issued (snd (createInvoice env prevState formData w)) =
    issued w ++
    [ INSERT_INTO_invoices (VString c)
        (VNumber (Number.of_Z (100 * digitsMV 10 ds))) (VString s)
        (today (clock env)) ] /\
  issued (snd (updateInvoice env id prevState formData w)) =
    issued w ++
    [ UPDATE_invoices (VString c)
        (VNumber (Number.of_Z (100 * digitsMV 10 ds))) (VString s) id ].
Proof.
  intros Hc Ha Hs Hin Hne Hd Hpos Hlt.
  set (k := digitsMV 10 ds) in *.
  assert (Hk : k < 2 ^ 53) by lia.
  assert (Hv : validFields formData c (Number.of_Z k) s).
  { unfold validFields. rewrite Hc, Ha, Hs. cbn [ToNumber].
    rewrite (StringToNumber_digits ds Hne Hd). fold k.
    destruct k as [|p|p]; [lia | | lia].
    destruct (of_Z_pos p Hk) as (m & E & _). rewrite E.
    repeat split; auto. }
  assert (Hmul : Number.mul (Number.of_Z k) (Number.of_Z 100)
                 = Number.of_Z (100 * k)).
  { rewrite mul_of_Z by lia. f_equal. lia. }
  split; [exact Hv|]. split; [apply to_Z_of_Z; lia|].
  rewrite (createInvoice_valid env prevState formData w c _ s Hv).
  rewrite (updateInvoice_valid env prevState formData w id c _ s Hv).
  cbv zeta. rewrite Hmul.
  split; destruct (store env _ (invoices w)); reflexivity.
Qed.

Lemma whole_amount_exact_cents_witness :
  Number.to_Z (Number.of_Z (100 * digitsMV 10 (list_ascii_of_string "250")))
    = Some 25000 /\
  issued (snd (createInvoice Example.env Example.noState
                 (Example.form Example.delba "250" "paid") Example.world)) =
    issued Example.world ++
    [ INSERT_INTO_invoices (VString Example.delba)
        (VNumber (Number.of_Z (100 * digitsMV 10 (list_ascii_of_string "250"))))
        (VString "paid") (today Example.now) ].
Proof.
  destruct (whole_amount_exact_cents Example.env Example.noState "X"
              (Example.form Example.delba "250" "paid") Example.world
              Example.delba (list_ascii_of_string "250") "paid")
    as (_ & Hz & Hi & _).
  - reflexivity.
  - reflexivity.
  - reflexivity.
  - right. reflexivity.
  - discriminate.
  - repeat constructor.
  - reflexivity.
  - reflexivity.
  - split; [exact Hz | exact Hi].
Defined.
